(** * GitCompass backend: recommendation, guide and skill routes

    A shallow embedding of the three Express routers of the backend
    (repository routes, guide routes, skill routes) and the properties of
    the recommendation / guide fallback flow and of skill management.

    Conventions of the embedding:
    - a JavaScript value that reaches a handler from outside (a request
      body, an upstream JSON answer) is a [JsVal];
    - a string is a sequence of bytes (UTF-8); only ASCII letters change
      under [toLowerCase]; a number is an integer that JavaScript prints
      in plain decimal;
    - [await axios.post], [await axios.get] and [Math.random] are the
      effects of a handler: a handler is a [Prog], a tree whose nodes are
      these calls and whose leaves are the HTTP answer;
    - a thrown exception is [None] (or the [Rejected] answer of axios),
      caught where the source catches it;
    - the document store maps a user id to the user document. *)

From Stdlib Require Import ZArith String Ascii List Lia DecimalString.
From stdpp Require Import base option list sorting gmap strings.

Local Open Scope string_scope.
Local Open Scope Z_scope.

(** ** JavaScript values and the operators the routes use *)
Module Js.

#[local] Set Warnings "-register-all".

Inductive JsVal : Type :=
| VUndefined
| VNull
| VBool (b : bool)
| VNum (z : Z)
| VStr (s : string)
| VArr (items : list JsVal)
| VObj (fields : list (string * JsVal)).

(** ToBoolean. *)
Definition truthy (v : JsVal) : bool :=
  match v with
  | VUndefined | VNull => false
  | VBool b => b
  | VNum z => negb (z =? 0)
  | VStr s => negb (String.eqb s "")
  | VArr _ | VObj _ => true
  end.

Definition falsy (v : JsVal) : bool := negb (truthy v).

(** [a || b]. *)
Definition orElse (a b : JsVal) : JsVal := if truthy a then a else b.

(** First binding of a key in an object literal (keys are distinct in a
    parsed body, so the first binding is the binding). *)
Fixpoint lookupField (k : string) (fields : list (string * JsVal)) : JsVal :=
  match fields with
  | [] => VUndefined
  | (k', v) :: rest => if String.eqb k k' then v else lookupField k rest
  end.

(** [v.k]: a TypeError ([None]) on [undefined] and [null], the field of
    an object, [undefined] on any other value (none of the keys read by
    the routes is a built-in property of a primitive or an array). *)
Definition get (v : JsVal) (k : string) : option JsVal :=
  match v with
  | VUndefined | VNull => None
  | VObj fields => Some (lookupField k fields)
  | _ => Some VUndefined
  end.

(** [v?.k]. *)
Definition getOpt (v : JsVal) (k : string) : JsVal :=
  match get v k with
  | Some x => x
  | None => VUndefined
  end.

(** [v === s] for a string literal [s]. *)
Definition strictEqStr (v : JsVal) (s : string) : bool :=
  match v with
  | VStr s' => String.eqb s' s
  | _ => false
  end.

(** The decimal digits of an integer: what JavaScript prints for the
    integers a number holds exactly (up to 2^53 in size). *)
Definition numToString (z : Z) : string := NilZero.string_of_int (Z.to_int z).

Fixpoint join (sep : string) (l : list string) : string :=
  match l with
  | [] => ""
  | [x] => x
  | x :: rest => x +:+ sep +:+ join sep rest
  end.

(** ToString, as a template literal applies it to a value it can
    print. The conversion of an object goes through its [toString]
    method: an object that has a key [toString] of its own hides the
    method and makes the conversion throw; such values are set apart by
    [interpolates] where a property depends on it. *)
Fixpoint toString (v : JsVal) : string :=
  match v with
  | VUndefined => "undefined"
  | VNull => "null"
  | VBool true => "true"
  | VBool false => "false"
  | VNum z => numToString z
  | VStr s => s
  | VArr items =>
      join "," (List.map (fun x => match x with
                                   | VUndefined | VNull => ""
                                   | _ => toString x
                                   end) items)
  | VObj _ => "[object Object]"
  end.

(** [s.toLowerCase()] on a string written in ASCII: the letters A to Z
    are lowered, every other byte is left as it is. For other strings
    the code lowers more than this ([isAscii] sets the ASCII ones
    apart where a property depends on it). *)
Definition lowerAscii (c : ascii) : ascii :=
  let n := N_of_ascii c in
  if ((65 <=? n) && (n <=? 90))%N then ascii_of_N (n + 32) else c.

Fixpoint toLowerCase (s : string) : string :=
  match s with
  | EmptyString => EmptyString
  | String c rest => String (lowerAscii c) (toLowerCase rest)
  end.

Fixpoint startsWith (p s : string) : bool :=
  match p, s with
  | EmptyString, _ => true
  | String a p', String b s' => Ascii.eqb a b && startsWith p' s'
  | String _ _, EmptyString => false
  end.

(** [s.includes(t)] on strings. *)
Fixpoint includes (t s : string) : bool :=
  startsWith t s ||
  match s with
  | EmptyString => false
  | String _ s' => includes t s'
  end.

Definition hexDigit (n : N) : ascii :=
  if (n <? 10)%N then ascii_of_N (48 + n) else ascii_of_N (55 + n).

(** The bytes [encodeURIComponent] leaves alone:
    [A-Z a-z 0-9 - _ . ! ~ * ' ( )]. *)
Definition unreserved (c : ascii) : bool :=
  let n := N_of_ascii c in
  (((65 <=? n) && (n <=? 90)) || ((97 <=? n) && (n <=? 122)) ||
   ((48 <=? n) && (n <=? 57)) ||
   (n =? 45) || (n =? 95) || (n =? 46) || (n =? 33) || (n =? 126) ||
   (n =? 42) || (n =? 39) || (n =? 40) || (n =? 41))%N.

Fixpoint encodeURIComponent (s : string) : string :=
  match s with
  | EmptyString => EmptyString
  | String c rest =>
      if unreserved c then String c (encodeURIComponent rest)
      else
        let n := N_of_ascii c in
        String "%" (String (hexDigit (n / 16)) (String (hexDigit (n mod 16))
          (encodeURIComponent rest)))
  end.

(** JSON.stringify of a string: quotes, and escapes for the quote, the
    backslash and the control bytes. *)
Definition lowerHexDigit (n : N) : ascii :=
  if (n <? 10)%N then ascii_of_N (48 + n) else ascii_of_N (87 + n).

Definition escapeChar (c : ascii) : string :=
  let n := N_of_ascii c in
  if (n =? 34)%N then "\" +:+ String c ""
  else if (n =? 92)%N then "\\"
  else if (n =? 8)%N then "\b"
  else if (n =? 9)%N then "\t"
  else if (n =? 10)%N then "\n"
  else if (n =? 12)%N then "\f"
  else if (n =? 13)%N then "\r"
  else if (n <? 32)%N then
    "\u00" +:+ String (lowerHexDigit (n / 16)) (String (lowerHexDigit (n mod 16)) "")
  else String c "".

Fixpoint escapeString (s : string) : string :=
  match s with
  | EmptyString => EmptyString
  | String c rest => escapeChar c +:+ escapeString rest
  end.

Definition quote (s : string) : string :=
  String (ascii_of_N 34) (escapeString s +:+ String (ascii_of_N 34) "").

(** JSON.stringify: [None] where it gives [undefined]; a field whose
    value is [undefined] is left out of an object, and an [undefined]
    array element is written [null]. *)
Fixpoint stringify (v : JsVal) : option string :=
  match v with
  | VUndefined => None
  | VNull => Some "null"
  | VBool true => Some "true"
  | VBool false => Some "false"
  | VNum z => Some (numToString z)
  | VStr s => Some (quote s)
  | VArr items =>
      Some ("[" +:+
            join "," (List.map (fun x => match stringify x with
                                         | Some t => t
                                         | None => "null"
                                         end) items) +:+ "]")
  | VObj fields =>
      Some ("{" +:+
            join "," ((fix members (fs : list (string * JsVal)) : list string :=
                         match fs with
                         | [] => []
                         | (k, x) :: rest =>
                             match stringify x with
                             | Some t => (quote k +:+ ":" +:+ t) :: members rest
                             | None => members rest
                             end
                         end) fields) +:+ "}")
  end.

End Js.
Import Js.

(** ** Effects of a handler *)

(** What [await axios.get/post] gives: the promise rejects (connection
    refused, timeout, a status outside 2xx) or resolves with
    [response.data]. *)
Inductive AxiosResult : Type :=
| Rejected
| Resolved (data : JsVal).

Inductive Prog (R : Type) : Type :=
| Ret (r : R)
| AxiosPost (url : string) (payload : JsVal) (timeout : Z) (k : AxiosResult -> Prog R)
| AxiosGet (url : string) (headers : list (string * string)) (k : AxiosResult -> Prog R)
| RandomBelow (n : Z) (k : Z -> Prog R).
Arguments Ret {R} r.
Arguments AxiosPost {R} url payload timeout k.
Arguments AxiosGet {R} url headers k.
Arguments RandomBelow {R} n k.

Fixpoint bind {A B : Type} (p : Prog A) (f : A -> Prog B) : Prog B :=
  match p with
  | Ret a => f a
  | AxiosPost url payload timeout k => AxiosPost url payload timeout (fun r => bind (k r) f)
  | AxiosGet url headers k => AxiosGet url headers (fun r => bind (k r) f)
  | RandomBelow n k => RandomBelow n (fun r => bind (k r) f)
  end.

Notation "'let*' x ':=' p 'in' q" := (bind p (fun x => q))
  (at level 10, x name, p at level 100, q at level 200).

(** [Math.floor(Math.random() * n)]. *)
Definition randomBelow (n : Z) : Prog Z := RandomBelow n Ret.

Inductive Event : Type :=
| EvPost (url : string) (payload : JsVal) (timeout : Z)
| EvGet (url : string) (headers : list (string * string))
| EvRandom (n : Z).

Definition isNetwork (e : Event) : bool :=
  match e with
  | EvPost _ _ _ | EvGet _ _ => true
  | EvRandom _ => false
  end.

(** The outside world of one request: what each upstream call answers,
    and the draws of the random generator (a draw for
    [Math.floor(Math.random() * n)] is reduced into [0, n)). *)
Record World : Type := {
  onPost : string -> JsVal -> AxiosResult;
  onGet : string -> list (string * string) -> AxiosResult;
  draws : list Z;
}.

(** [run p w ds] answers the calls of [p] from [w], with [ds] the draws
    still unused: the result, the calls in the order they were made, and
    the draws that are left. *)
Fixpoint run {R : Type} (p : Prog R) (w : World) (ds : list Z)
  : R * list Event * list Z :=
  match p with
  | Ret r => (r, [], ds)
  | AxiosPost url payload timeout k =>
      let '(r, tr, ds') := run (k (onPost w url payload)) w ds in
      (r, EvPost url payload timeout :: tr, ds')
  | AxiosGet url headers k =>
      let '(r, tr, ds') := run (k (onGet w url headers)) w ds in
      (r, EvGet url headers :: tr, ds')
  | RandomBelow n k =>
      let '(r, tr, ds') := run (k (hd 0 ds mod n)) w (tl ds) in
      (r, EvRandom n :: tr, ds')
  end.

Definition exec {R : Type} (p : Prog R) (w : World) : R * list Event :=
  fst (run p w (draws w)).

(** An HTTP answer: [res.status(c).json(b)]; [res.json(b)] has status 200. *)
Record Response : Type := {
  status : Z;
  body : JsVal;
}.

Definition json (b : JsVal) : Response := {| status := 200; body := b |}.
Definition statusJson (c : Z) (b : JsVal) : Response := {| status := c; body := b |}.

(** [process.env]. *)
Record Env : Type := {
  GITHUB_TOKEN : option string;
  AI_SERVICE_URL_env : option string;
}.

(** Truthiness of a string that may be absent. *)
Definition truthyStr (o : option string) : bool :=
  match o with
  | Some s => negb (String.eqb s "")
  | None => false
  end.

(** [process.env.AI_SERVICE_URL || 'http://localhost:8000']. *)
Definition AI_SERVICE_URL (env : Env) : string :=
  if truthyStr (AI_SERVICE_URL_env env)
  then default "" (AI_SERVICE_URL_env env)
  else "http://localhost:8000".

(** ** Documents of the store (User model) *)

(** A sub-document of [skills: [{name: String, confidence: Number,
    category: String}]]. *)
Record Skill : Type := {
  name : string;
  confidence : Z;
  category : string;
}.

Record Resume : Type := {
  filename : string;
  uploadedAt : Z;
}.

(** The fields of a User document the routes read or write. *)
Record User : Type := {
  _id : string;
  accessToken : option string;
  skills : option (list Skill);
  resume : option Resume;
}.

(** The fields of the schema of a skill, as an answer lists them; the
    [_id] that the store gives each sub-document is left out. *)
Definition skillToJs (s : Skill) : JsVal :=
  VObj [("name", VStr (name s)); ("confidence", VNum (confidence s));
        ("category", VStr (category s))].

(** ** Array.prototype.sort *)

(** [arr.sort(cmp)]: ECMAScript requires the sort to be stable and, for
    a consistent comparator, sorted; that fixes the result, computed
    here by a stable insertion. [cmp a b > 0] puts [a] after [b]. *)
Section Sort.
Context {A : Type} (cmp : A -> A -> Z).

Fixpoint insertSorted (x : A) (l : list A) : list A :=
  match l with
  | [] => [x]
  | y :: rest =>
      if 0 <? cmp x y then y :: insertSorted x rest else x :: y :: rest
  end.

Fixpoint sort (l : list A) : list A :=
  match l with
  | [] => []
  | x :: rest => insertSorted x (sort rest)
  end.
End Sort.

(** ** Repository routes (GET /api/repositories/recommendations) *)
Module Repository.

Definition GITHUB_API_URL : string := "https://api.github.com".

(** The headers of the helper that makes GitHub API requests. *)
Definition githubHeaders (env : Env) (token : option string) : list (string * string) :=
  let headers := [("Accept", "application/vnd.github.v3+json");
                  ("User-Agent", "GitCompass-App")] in
  if truthyStr token then
    (headers ++ [("Authorization", "token " +:+ default "" token)])%list
  else if truthyStr (GITHUB_TOKEN env) then
    (headers ++ [("Authorization", "token " +:+ default "" (GITHUB_TOKEN env))])%list
  else headers.

Definition githubRequest (env : Env) (endpoint : string) (token : option string)
  : Prog AxiosResult :=
  AxiosGet (GITHUB_API_URL +:+ endpoint) (githubHeaders env token) Ret.

(** The comparator [(a, b) => b.confidence - a.confidence]. *)
Definition byConfidenceDesc (a b : Skill) : Z := confidence b - confidence a.

(** [user.skills.sort(...).slice(0, 5).map(s => s.name)]. *)
Definition topSkills (sk : list Skill) : list string :=
  name <$> take 5 (sort byConfidenceDesc sk).

(** [topSkills.join(' OR ') + ' good-first-issues:>0']. *)
Definition searchQuery (top : list string) : string :=
  join " OR " top +:+ " good-first-issues:>0".

Definition fallbackEndpoint (top : list string) : string :=
  "/search/repositories?q=" +:+ encodeURIComponent (searchQuery top) +:+
  "&sort=stars&order=desc&per_page=10".

(** [topSkills[0]] inside the template literal. *)
Definition firstSkill (top : list string) : string :=
  match top with
  | t :: _ => t
  | [] => "undefined"
  end.

Definition difficulties : list string := ["Easy"; "Medium"; "Hard"].

(** The callback of [response.data.items.map((repo, index) => ...)];
    [None] is the TypeError of reading a field of a missing [repo] or
    [repo.owner]. *)
Definition mapRepo (top : list string) (repo : JsVal) (index : Z)
  : Prog (option JsVal) :=
  match get repo "id", get repo "owner" with
  | Some id, Some owner =>
      match get owner "login", get owner "avatar_url" with
      | Some login, Some avatarUrl =>
          let* g := randomBelow 20 in
          let* d := randomBelow 3 in
          Ret (Some (VObj [
            ("id", id);
            ("name", getOpt repo "name");
            ("fullName", getOpt repo "full_name");
            ("owner", VObj [("login", login); ("avatarUrl", avatarUrl)]);
            ("description", getOpt repo "description");
            ("stars", getOpt repo "stargazers_count");
            ("forks", getOpt repo "forks_count");
            ("language", getOpt repo "language");
            ("topics", Js.orElse (getOpt repo "topics") (VArr []));
            ("updatedAt", getOpt repo "updated_at");
            ("matchScore", VNum (95 - index * 5));
            ("matchReason", VStr ("Matches your " +:+ firstSkill top +:+ " skills"));
            ("goodFirstIssues", VNum (g + 5));
            ("difficulty", VStr (nth (Z.to_nat d) difficulties ""))]))
      | _, _ => Ret None
      end
  | _, _ => Ret None
  end.

(** [items.map(callback)], left to right; the first throwing callback
    ends the map. *)
Fixpoint mapRepos (top : list string) (items : list JsVal) (index : Z)
  : Prog (option (list JsVal)) :=
  match items with
  | [] => Ret (Some [])
  | repo :: rest =>
      let* r := mapRepo top repo index in
      match r with
      | None => Ret None
      | Some x =>
          let* rs := mapRepos top rest (index + 1) in
          Ret (match rs with
               | Some xs => Some (x :: xs)
               | None => None
               end)
      end
  end.

Definition noSkills : Response :=
  statusJson 400 (VObj [("success", VBool false);
    ("message", VStr "No skills found. Please upload your resume first.")]).

Definition failed : Response :=
  statusJson 500 (VObj [("success", VBool false);
    ("message", VStr "Failed to get recommendations")]).

Definition success (data : JsVal) : Response :=
  json (VObj [("success", VBool true); ("data", data)]).

(** The [catch (aiError)] block. *)
Definition fallback (env : Env) (user : User) (top : list string) : Prog Response :=
  let* response := githubRequest env (fallbackEndpoint top) (accessToken user) in
  match response with
  | Rejected => Ret failed
  | Resolved data =>
      match get data "items" with
      | Some (VArr items) =>
          let* repositories := mapRepos top items 0 in
          match repositories with
          | Some rs => Ret (success (VArr rs))
          | None => Ret failed
          end
      | _ => Ret failed
      end
  end.

(** The body of the call to the AI service. *)
Definition recommendBody (user : User) (top : list string) : JsVal :=
  VObj [("skills", VArr (VStr <$> top)); ("userId", VStr (_id user))].

(** The handler of GET /recommendations, after [isAuthenticated]. *)
Definition recommendations (env : Env) (user : User) : Prog Response :=
  match skills user with
  | None | Some [] => Ret noSkills
  | Some sk =>
      let top := topSkills sk in
      AxiosPost (AI_SERVICE_URL env +:+ "/api/recommend")
        (recommendBody user top)
        120000
        (fun aiResponse =>
           match aiResponse with
           | Resolved data =>
               match get data "recommendations" with
               | Some recs => Ret (success recs)
               | None => fallback env user top
               end
           | Rejected => fallback env user top
           end)
  end.

End Repository.

(** ** Guide routes (POST /api/guide/generate) *)
Module Guide.

Definition dq : string := String (ascii_of_N 34) "".

Definition repoRequired : Response :=
  statusJson 400 (VObj [("success", VBool false);
    ("message", VStr "Repository data is required")]).

Definition failed : Response :=
  statusJson 500 (VObj [("success", VBool false);
    ("message", VStr "Failed to generate contribution guide")]).

(** [labels.includes(s)]: the array method, the string method, or the
    TypeError of a value that has no [includes]. *)
Definition labelsInclude (labels : JsVal) (s : string) : option bool :=
  match labels with
  | VArr items => Some (existsb (fun x => strictEqStr x s) items)
  | VStr t => Some (includes s t)
  | _ => None
  end.

Definition estimatedTime (difficulty : JsVal) : string :=
  if strictEqStr difficulty "easy" then "1-3 hours"
  else if strictEqStr difficulty "medium" then "3-8 hours"
  else "1-3 days".

Definition gettingStarted (repoName issueNumber : string) : list string :=
  [ "Fork the repository to your GitHub account";
    "Clone your fork: `git clone https://github.com/YOUR_USERNAME/" +:+ repoName +:+ ".git`";
    "Navigate to the project directory: `cd " +:+ repoName +:+ "`";
    "Install dependencies (check README.md for specific instructions)";
    "Create a new branch: `git checkout -b fix/issue-" +:+ issueNumber +:+ "`";
    "Read the issue description and comments thoroughly";
    "Make your changes addressing the issue requirements";
    "Test your changes locally";
    "Commit: `git commit -m " +:+ dq +:+ "Fix #" +:+ issueNumber +:+
      ": Brief description" +:+ dq +:+ "`";
    "Push and open a Pull Request referencing the issue" ].

Definition codeConventions : list string :=
  [ "Read the CONTRIBUTING.md file if available";
    "Follow the existing code style in the project";
    "Write tests for new features when applicable";
    "Keep commits atomic and well-documented" ].

Definition tips : list string :=
  [ "Comment on the issue to let maintainers know you're working on it";
    "Check if someone is already assigned or working on this issue";
    "Start with understanding the codebase structure";
    "Ask questions in issue comments if requirements are unclear";
    "Reference the issue number in your PR description";
    "Be patient with maintainers - they are often volunteers" ].

(** The object literal [templateGuide] of the [catch (aiError)] block;
    [None] when building it throws. *)
Definition templateGuide (repoData issueData : JsVal) : option JsVal :=
  let issueTitle := Js.orElse (getOpt issueData "title") (VStr "this issue") in
  let issueNumber := Js.orElse (getOpt issueData "number") (VStr "") in
  let difficulty := Js.orElse (getOpt issueData "difficulty") (VStr "medium") in
  let labels := Js.orElse (getOpt issueData "labels") (VArr []) in
  let fullName := toString (getOpt repoData "fullName") in
  match labelsInclude labels "good first issue" with
  | None => None
  | Some goodFirst =>
      Some (VObj [
        ("summary", VStr ("Issue #" +:+ toString issueNumber +:+ ": " +:+ dq +:+
           toString issueTitle +:+ dq +:+ " in " +:+ fullName +:+ " is " +:+
           (if goodFirst
            then "a great starting point for first-time contributors"
            else "an opportunity to contribute to an active open-source project")
           +:+ "."));
        ("gettingStarted",
           VArr (VStr <$>
             gettingStarted (toString (getOpt repoData "name")) (toString issueNumber)));
        ("issueAnalysis", VObj [
           ("difficulty", difficulty);
           ("estimatedTime", VStr (estimatedTime difficulty));
           ("labels", labels)]);
        ("codeConventions", VArr (VStr <$> codeConventions));
        ("tips", VArr (VStr <$> tips));
        ("resources", VArr [
           VObj [("title", VStr "View Issue on GitHub");
                 ("url", VStr ("https://github.com/" +:+ fullName +:+ "/issues/" +:+
                               toString issueNumber))];
           VObj [("title", VStr "Repository README");
                 ("url", VStr ("https://github.com/" +:+ fullName +:+ "#readme"))];
           VObj [("title", VStr "Pull Requests Guide");
                 ("url", VStr "https://docs.github.com/en/pull-requests")]])])
  end.

(** [req.user?.skills || userContext?.skills || []]. *)
Definition userSkills (reqUser : option User) (userContext : JsVal) : JsVal :=
  match reqUser ≫= skills with
  | Some sk => VArr (skillToJs <$> sk)
  | None => Js.orElse (getOpt userContext "skills") (VArr [])
  end.

Definition aiPayload (reqUser : option User) (repoData issueData userContext : JsVal)
  : JsVal :=
  VObj [("repository", repoData);
        ("issue", Js.orElse issueData VNull);
        ("userSkills", userSkills reqUser userContext);
        ("userId", match reqUser with
                   | Some u => VStr (_id u)
                   | None => VUndefined
                   end)].

(** The [catch (aiError)] block. *)
Definition templateResponse (repoData issueData : JsVal) : Response :=
  match templateGuide repoData issueData with
  | Some guide =>
      json (VObj [("success", VBool true); ("data", guide); ("isTemplate", VBool true)])
  | None => failed
  end.

(** The handler of POST /generate, after [optionalAuth]; [reqUser] is
    [req.user], [reqBody] is [req.body]. *)
Definition generate (env : Env) (reqUser : option User) (reqBody : JsVal)
  : Prog Response :=
  match get reqBody "repoData" with
  | None => Ret failed
  | Some repoData =>
      let issueData := getOpt reqBody "issueData" in
      let userContext := getOpt reqBody "userContext" in
      if negb (truthy repoData) || negb (truthy (getOpt repoData "fullName"))
      then Ret repoRequired
      else
        AxiosPost (AI_SERVICE_URL env +:+ "/api/generate-guide")
          (aiPayload reqUser repoData issueData userContext)
          60000
          (fun aiResponse =>
             match aiResponse with
             | Resolved data =>
                 match get data "guide" with
                 | Some guide =>
                     Ret (json (VObj [("success", VBool true); ("data", guide)]))
                 | None => Ret (templateResponse repoData issueData)
                 end
             | Rejected => Ret (templateResponse repoData issueData)
             end)
  end.

End Guide.

(** ** Skill routes (/api/skills) *)
Module Skills.

Inductive Method : Type := GET | POST | DELETE.

Inductive Handler : Type :=
| GetSkills
| AddSkills
| DeleteSkill
| ExtractResume
| ClearSkills.

(** A segment of a route path: a literal or a [:param]. *)
Inductive Segment : Type :=
| Lit (s : string)
| Param (p : string).

(** The routes of the router, in the order of their registration:
    [router.get('/')], [router.post('/')], [router.delete('/:skillName')],
    [router.post('/extract-resume')], [router.delete('/all')]. *)
Definition routes : list (Method * list Segment * Handler) :=
  [ (GET, [], GetSkills);
    (POST, [], AddSkills);
    (DELETE, [Param "skillName"], DeleteSkill);
    (POST, [Lit "extract-resume"], ExtractResume);
    (DELETE, [Lit "all"], ClearSkills) ].

Definition methodEqb (a b : Method) : bool :=
  match a, b with
  | GET, GET | POST, POST | DELETE, DELETE => true
  | _, _ => false
  end.

(** Express matches a path segment by segment (the segments of a request
    path are non-empty and decoded); a literal is compared without
    regard to case, a parameter takes the segment. *)
Fixpoint matchPath (pattern : list Segment) (path : list string)
  : option (list (string * string)) :=
  match pattern, path with
  | [], [] => Some []
  | Lit s :: pattern', seg :: path' =>
      if String.eqb (toLowerCase s) (toLowerCase seg) then matchPath pattern' path'
      else None
  | Param p :: pattern', seg :: path' =>
      match matchPath pattern' path' with
      | Some params => Some ((p, seg) :: params)
      | None => None
      end
  | _, _ => None
  end.

(** The router runs the first registered route that matches; none of
    the handlers calls [next()]. *)
Fixpoint dispatch (rs : list (Method * list Segment * Handler)) (m : Method)
  (path : list string) : option (Handler * list (string * string)) :=
  match rs with
  | [] => None
  | (m', pattern, h) :: rest =>
      if methodEqb m m' then
        match matchPath pattern path with
        | Some params => Some (h, params)
        | None => dispatch rest m path
        end
      else dispatch rest m path
  end.

Definition param (k : string) (params : list (string * string)) : string :=
  match List.find (fun kv => String.eqb (fst kv) k) params with
  | Some kv => snd kv
  | None => ""
  end.

Definition setSkills (u : User) (sk : list Skill) : User :=
  {| _id := _id u; accessToken := accessToken u; skills := Some sk; resume := resume u |}.

Definition failed (message : string) : Response :=
  statusJson 500 (VObj [("success", VBool false); ("message", VStr message)]).

Definition skillsToJs (sk : list Skill) : JsVal := VArr (skillToJs <$> sk).

(** [skill.name.toLowerCase()]; [None] is the TypeError of a missing
    skill or of a name that is not a string. *)
Definition lowerName (skill : JsVal) : option string :=
  match get skill "name" with
  | Some (VStr n) => Some (toLowerCase n)
  | _ => None
  end.

(** [skills.filter(skill => !existingSkillNames.has(skill.name.toLowerCase()))]. *)
Fixpoint filterNew (existingSkillNames : gset string) (items : list JsVal)
  : option (list JsVal) :=
  match items with
  | [] => Some []
  | skill :: rest =>
      match lowerName skill with
      | None => None
      | Some n =>
          match filterNew existingSkillNames rest with
          | None => None
          | Some kept =>
              Some (if bool_decide (n ∈ existingSkillNames) then kept else skill :: kept)
          end
      end
  end.

(** The callback of [.map(skill => ({ name, confidence || 80, category || 'Manual' }))]. *)
Definition newSkill (skill : JsVal) : JsVal :=
  VObj [("name", getOpt skill "name");
        ("confidence", Js.orElse (getOpt skill "confidence") (VNum 80));
        ("category", Js.orElse (getOpt skill "category") (VStr "Manual"))].

Section Handlers.
(** The store casts a pushed object to the sub-document schema when it
    is saved. A number stays the number and a string stays the string;
    what the store makes of a value of another type is its own
    coercion, left open here ([None]: the save rejects). *)
Variable odmNumber : JsVal -> option Z.
Variable odmString : JsVal -> option string.

Definition castNumber (v : JsVal) : option Z :=
  match v with
  | VNum z => Some z
  | _ => odmNumber v
  end.

Definition castString (v : JsVal) : option string :=
  match v with
  | VStr s => Some s
  | _ => odmString v
  end.

Definition castSkill (v : JsVal) : option Skill :=
  match castString (getOpt v "name"),
        castNumber (getOpt v "confidence"),
        castString (getOpt v "category") with
  | Some n, Some c, Some g => Some {| name := n; confidence := c; category := g |}
  | _, _, _ => None
  end.

(** POST /api/skills, after [isAuthenticated]; [uid] is [req.user._id],
    [items] the array [req.body.skills]. A user document that is not
    found, or has no skill array, makes the handler throw. *)
Definition postSkills (uid : string) (reqBody : JsVal) (store : gmap string User)
  : Response * gmap string User :=
  match get reqBody "skills" with
  | None => (failed "Failed to add skills", store)
  | Some (VArr ((_ :: _) as items)) =>
      match store !! uid ≫= (fun user => pair user <$> skills user) with
      | None => (failed "Failed to add skills", store)
      | Some (user, existing) =>
          let existingSkillNames : gset string :=
            list_to_set ((fun s => toLowerCase (name s)) <$> existing) in
          match filterNew existingSkillNames items with
          | None => (failed "Failed to add skills", store)
          | Some kept =>
              let newSkills := newSkill <$> kept in
              match mapM castSkill newSkills with
              | None => (failed "Failed to add skills", store)
              | Some docs =>
                  let all := (existing ++ docs)%list in
                  (json (VObj [
                     ("success", VBool true);
                     ("message", VStr ("Added " +:+
                        numToString (Z.of_nat (length newSkills)) +:+ " new skill(s)"));
                     ("data", VObj [("skills", skillsToJs all);
                                    ("added", VArr newSkills)])]),
                   <[uid := setSkills user all]> store)
              end
          end
      end
  | Some _ =>
      (statusJson 400 (VObj [("success", VBool false);
         ("message", VStr "Please provide skills array")]), store)
  end.

(** DELETE /api/skills/:skillName. *)
Definition deleteSkillByName (uid : string) (skillName : string)
  (store : gmap string User) : Response * gmap string User :=
  match store !! uid ≫= (fun user => pair user <$> skills user) with
  | None => (failed "Failed to delete skill", store)
  | Some (user, existing) =>
      let initialLength := length existing in
      let kept :=
        List.filter (fun skill =>
          negb (String.eqb (toLowerCase (name skill)) (toLowerCase skillName)))
          existing in
      if (length kept =? initialLength)%nat then
        (statusJson 404 (VObj [("success", VBool false);
           ("message", VStr "Skill not found")]), store)
      else
        (json (VObj [("success", VBool true);
                     ("message", VStr "Skill deleted successfully");
                     ("data", VObj [("skills", skillsToJs kept)])]),
         <[uid := setSkills user kept]> store)
  end.

(** DELETE /api/skills/all: [user.skills = []; user.resume = null]. *)
Definition clearAll (uid : string) (store : gmap string User)
  : Response * gmap string User :=
  match store !! uid with
  | None => (failed "Failed to clear skills", store)
  | Some user =>
      (json (VObj [("success", VBool true);
                   ("message", VStr "All skills cleared");
                   ("data", VObj [("skills", VArr [])])]),
       <[uid := {| _id := _id user; accessToken := accessToken user;
                   skills := Some []; resume := None |}]> store)
  end.

(** A DELETE request of an authenticated caller on the router mounted
    at /api/skills; [path] is the list of segments after the mount
    point. Without a matching route Express answers 404. *)
Definition serveDelete (uid : string) (path : list string) (store : gmap string User)
  : Response * gmap string User :=
  match dispatch routes DELETE path with
  | Some (DeleteSkill, params) => deleteSkillByName uid (param "skillName" params) store
  | Some (ClearSkills, _) => clearAll uid store
  | _ => (statusJson 404 VUndefined, store)
  end.
End Handlers.

End Skills.

(** ** Numeric coercion *)
Module Coercion.

Section Numbers.
(** The number a string stands for when JavaScript converts it
    (StringToNumber); [None] when it stands for none (NaN). *)
Variable stringToNumber : string -> option Z.

(** ToNumber of a value it can convert; [None] is NaN. An object with
    a key [toString] of its own makes the conversion throw, as for
    [toString] ([interpolates] sets such values apart). *)
Definition toNumber (v : JsVal) : option Z :=
  match v with
  | VUndefined => None
  | VNull => Some 0
  | VBool true => Some 1
  | VBool false => Some 0
  | VNum z => Some z
  | VStr s => stringToNumber s
  | VArr _ => stringToNumber (toString v)
  | VObj _ => None
  end.

(** [v > n], [v < n] and [v <= n] for a number [n]: false when [v] is
    not a number. *)
Definition gt (v : JsVal) (n : Z) : bool :=
  match toNumber v with
  | Some z => n <? z
  | None => false
  end.

Definition lt (v : JsVal) (n : Z) : bool :=
  match toNumber v with
  | Some z => z <? n
  | None => false
  end.

Definition le (v : JsVal) (n : Z) : bool :=
  match toNumber v with
  | Some z => z <=? n
  | None => false
  end.
End Numbers.

End Coercion.

(** ** The client (frontend/src) *)
Module Frontend.

(** What the server reads of a JSON body the client sends:
    [JSON.parse(JSON.stringify(v))]. A field whose value is [undefined]
    is not sent; an [undefined] array element arrives as [null]. *)
Fixpoint wire (v : JsVal) : JsVal :=
  match v with
  | VArr items =>
      VArr (List.map (fun x => match x with
                               | VUndefined => VNull
                               | _ => wire x
                               end) items)
  | VObj fields =>
      VObj ((fix members (fs : list (string * JsVal)) : list (string * JsVal) :=
               match fs with
               | [] => []
               | (k, x) :: rest =>
                   match x with
                   | VUndefined => members rest
                   | _ => (k, wire x) :: members rest
                   end
               end) fields)
  | _ => v
  end.

(** api/axios.js: the body of [guideAPI.generate(repoData, userContext)]. *)
Definition guideAPI_generate (repoData userContext : JsVal) : JsVal :=
  VObj [("repoData", repoData); ("userContext", userContext)].

(** api/axios.js: the body of [guideService.generate(repository, userSkills)]. *)
Definition guideService_generate (repository userSkills : JsVal) : JsVal :=
  VObj [("repository", repository); ("userSkills", userSkills)].

(** SkillsPage, [handleAddSkill]: the body posted to /skills, or [None]
    when the handler returns without a request; [trimmed] is
    [newSkill.trim()]. *)
Definition handleAddSkill (trimmed : string) : option JsVal :=
  if String.eqb trimmed "" then None
  else Some (VObj [("skills",
               VArr [VObj [("name", VStr trimmed); ("category", VStr "Manual")]])]).

(** [issue.labels.map(l => l.name.toLowerCase())]; [None] is a TypeError. *)
Definition lowerLabels (issue : JsVal) : option (list string) :=
  match get issue "labels" with
  | Some (VArr ls) =>
      mapM (fun l => match get l "name" with
                     | Some (VStr n) => Some (toLowerCase n)
                     | _ => None
                     end) ls
  | _ => None
  end.

(** [issue.labels.map(label => ({ name: label.name, color: label.color }))]. *)
Definition plainLabels (issue : JsVal) : option (list JsVal) :=
  match get issue "labels" with
  | Some (VArr ls) =>
      mapM (fun l => match get l "name", get l "color" with
                     | Some n, Some c => Some (VObj [("name", n); ("color", c)])
                     | _, _ => None
                     end) ls
  | _ => None
  end.

(** [selectedIssue.labels.map(l => l.name)]. *)
Definition labelNames (issue : JsVal) : option (list JsVal) :=
  match get issue "labels" with
  | Some (VArr ls) => mapM (fun l => get l "name") ls
  | _ => None
  end.

Section Pages.
Variable stringToNumber : string -> option Z.

(** RepositoryPage: classify issue difficulty based on labels and
    comments. *)
Definition classifyDifficulty (issue : JsVal) : option string :=
  match lowerLabels issue with
  | None => None
  | Some labels =>
      let includes := fun n : string => bool_decide (n ∈ labels) in
      Some (if includes "good first issue" || includes "beginner" || includes "easy"
            then "easy"
            else if includes "help wanted" || includes "intermediate"
            then "medium"
            else if includes "complex" || includes "advanced" || includes "hard"
            then "hard"
            else if Coercion.le stringToNumber (getOpt issue "comments") 3 then "easy"
            else if Coercion.le stringToNumber (getOpt issue "comments") 10 then "medium"
            else "hard")
  end.

(** RepositoryPage: the callback of [filteredIssues.map(issue => ...)]. *)
Definition transformIssue (issue : JsVal) : option JsVal :=
  match plainLabels issue, classifyDifficulty issue,
        get (getOpt issue "user") "login" with
  | Some labels, Some difficulty, Some login =>
      Some (VObj [
        ("id", getOpt issue "id");
        ("number", getOpt issue "number");
        ("title", getOpt issue "title");
        ("body", Js.orElse (getOpt issue "body") (VStr ""));
        ("labels", VArr labels);
        ("state", getOpt issue "state");
        ("createdAt", getOpt issue "created_at");
        ("comments", getOpt issue "comments");
        ("difficulty", VStr difficulty);
        ("user", VObj [("login", login);
                       ("avatarUrl", getOpt (getOpt issue "user") "avatar_url")])])
  | _, _, _ => None
  end.

(** DashboardPage: calculate profile completion percentage; [skills]
    is the array of the page's state. *)
Definition calculateProfileCompletion (user : JsVal) (skills : list JsVal) : Z :=
  if negb (truthy user) then 0
  else
    let checks := [
      truthy (getOpt user "avatar");
      truthy (getOpt user "bio");
      truthy (getOpt user "location");
      truthy (getOpt user "company");
      truthy (getOpt user "email");
      (0 <? Z.of_nat (length skills));
      Coercion.gt stringToNumber (getOpt user "publicRepos") 0 ] in
    let score :=
      fold_left (fun score (check : bool) =>
                   if check then score + 100 / Z.of_nat (length checks) else score)
        checks 0 in
    Z.min score 100.
End Pages.

(** RepositoryPage, [generateGuideForIssue]: the body posted to
    /guide/generate. The outer [None] is the return without a request,
    the inner one a TypeError while the body is built. *)
Definition generateGuideForIssue (user repository selectedIssue : JsVal)
  : option (option JsVal) :=
  if negb (truthy selectedIssue) || negb (truthy repository) then None
  else
    Some (match labelNames selectedIssue with
          | None => None
          | Some names =>
              Some (VObj [
                ("repoData", VObj [
                   ("name", getOpt repository "name");
                   ("fullName", getOpt repository "fullName");
                   ("description", getOpt repository "description");
                   ("language", getOpt repository "language");
                   ("stars", getOpt repository "stars");
                   ("topics", getOpt repository "topics")]);
                ("issueData", VObj [
                   ("number", getOpt selectedIssue "number");
                   ("title", getOpt selectedIssue "title");
                   ("labels", VArr names);
                   ("difficulty", getOpt selectedIssue "difficulty");
                   ("comments", getOpt selectedIssue "comments")]);
                ("userContext", VObj [
                   ("skills", Js.orElse (getOpt user "skills") (VArr []))])])
          end).

End Frontend.

(** ** The contribution calendar (routes/auth.routes.js, GET /contributions) *)
Module Contributions.

Record Streaks : Type := {
  currentStreak : Z;
  longestStreak : Z;
  tempStreak : Z
}.

Section Calendar.
Variable stringToNumber : string -> option Z.

(** The body of the streak loop at index [i]; [None] is the TypeError
    of a day that is [null] or [undefined]. *)
Definition step (days : list JsVal) (i : nat) (st : Streaks) : option Streaks :=
  match days !! i ≫= (fun day => get day "contributionCount") with
  | None => None
  | Some contributionCount =>
      if Coercion.gt stringToNumber contributionCount 0 then
        let temp := tempStreak st + 1 in
        Some {| currentStreak :=
                  if Z.of_nat i =? Z.of_nat (length days) - 1 then temp
                  else currentStreak st;
                longestStreak := longestStreak st;
                tempStreak := temp |}
      else
        Some {| currentStreak := currentStreak st;
                longestStreak := Z.max (longestStreak st) (tempStreak st);
                tempStreak := 0 |}
  end.

(** [for (let i = days.length - 1; i >= 0; i--)] with [n] iterations
    left: the next index is [n - 1]. *)
Fixpoint loop (days : list JsVal) (n : nat) (st : Streaks) : option Streaks :=
  match n with
  | O => Some st
  | S i =>
      match step days i st with
      | Some st' => loop days i st'
      | None => None
      end
  end.

(** Calculate streaks: the current and the longest streak of the days
    of the calendar, oldest first. *)
Definition streaks (days : list JsVal) : option (Z * Z) :=
  match loop days (length days)
          {| currentStreak := 0; longestStreak := 0; tempStreak := 0 |} with
  | Some st => Some (currentStreak st, Z.max (longestStreak st) (tempStreak st))
  | None => None
  end.

(** The level of a day:
    [count === 0 ? 0 : count < 3 ? 1 : count < 6 ? 2 : count < 10 ? 3 : 4]. *)
Definition level (contributionCount : JsVal) : Z :=
  match contributionCount with
  | VNum 0 => 0
  | _ =>
      if Coercion.lt stringToNumber contributionCount 3 then 1
      else if Coercion.lt stringToNumber contributionCount 6 then 2
      else if Coercion.lt stringToNumber contributionCount 10 then 3
      else 4
  end.
End Calendar.

End Contributions.

(** ** Vocabulary of the properties *)

(** Position [i] of a skill list ranks before position [j]: a higher
    confidence, or the same confidence and an earlier insertion. *)
Definition ranksBefore (sk : list Skill) (i j : nat) : Prop :=
  match sk !! i, sk !! j with
  | Some a, Some b =>
      confidence a > confidence b \/
      (confidence a = confidence b /\ (i < j)%nat)
  | _, _ => False
  end.

(** The same order on skills that carry their position. *)
Definition ranked (p q : nat * Skill) : Prop :=
  confidence (snd p) > confidence (snd q) \/
  (confidence (snd p) = confidence (snd q) /\ (fst p < fst q)%nat).

Definition byConfidenceDescAt (p q : nat * Skill) : Z :=
  Repository.byConfidenceDesc (snd p) (snd q).

(** What the route reads from the AI service: the [recommendations]
    field of the resolved body; [None] when the call rejects or the
    read throws, which is when the route falls back. *)
Definition aiAnswer (w : World) (env : Env) (user : User) (top : list string)
  : option JsVal :=
  match onPost w (AI_SERVICE_URL env +:+ "/api/recommend")
          (Repository.recommendBody user top) with
  | Resolved data => get data "recommendations"
  | Rejected => None
  end.

(** The hits of the fallback search: the [items] array of the resolved
    body; [None] when the search rejects or gives no such array. *)
Definition searchAnswer (w : World) (env : Env) (user : User) (top : list string)
  : option (list JsVal) :=
  match onGet w (Repository.GITHUB_API_URL +:+ Repository.fallbackEndpoint top)
          (Repository.githubHeaders env (accessToken user)) with
  | Resolved data =>
      match get data "items" with
      | Some (VArr items) => Some items
      | _ => None
      end
  | Rejected => None
  end.

(** A hit the fallback can reshape: it has an owner to read from. *)
Definition wellFormed (repo : JsVal) : bool :=
  match get repo "owner" with
  | Some owner => bool_decide (is_Some (get owner "login"))
  | None => false
  end.

(** The fallback succeeds: the search gives hits and all can be reshaped. *)
Definition fallbackSucceeds (w : World) (env : Env) (user : User) (top : list string)
  : bool :=
  match searchAnswer w env user top with
  | Some items => forallb wellFormed items
  | None => false
  end.

(** [t] occurs in [s]. *)
Definition occursIn (t s : string) : Prop :=
  exists pre post, s = pre +:+ t +:+ post.

(** A trace without a network call. *)
Definition randomOnly (tr : list Event) : Prop :=
  Forall (fun e => isNetwork e = false) tr.

(** The two synthesized ranking fields of the fallback result at
    position [index]. *)
Definition reshapedAt (top : list string) (index : Z) (r : JsVal) : Prop :=
  getOpt r "matchScore" = VNum (95 - index * 5) /\
  getOpt r "matchReason" =
    VStr ("Matches your " +:+ Repository.firstSkill top +:+ " skills").

(** What the guide route reads from the AI service: the [guide] field
    of the resolved body; [None] when the call rejects or the read
    throws, which is when the route builds the template. *)
Definition guideAnswer (w : World) (env : Env) (reqUser : option User) (reqBody : JsVal)
  : option JsVal :=
  match onPost w (AI_SERVICE_URL env +:+ "/api/generate-guide")
          (Guide.aiPayload reqUser (getOpt reqBody "repoData")
             (getOpt reqBody "issueData") (getOpt reqBody "userContext")) with
  | Resolved data => get data "guide"
  | Rejected => None
  end.

(** The request names a repository (it passes the 400 check). *)
Definition namesRepository (reqBody : JsVal) : bool :=
  truthy (getOpt reqBody "repoData") &&
  truthy (getOpt (getOpt reqBody "repoData") "fullName").

(** The request takes the template path: it names a repository and the
    AI call fails. *)
Definition templatePath (w : World) (env : Env) (reqUser : option User)
  (reqBody : JsVal) : bool :=
  namesRepository reqBody &&
  match guideAnswer w env reqUser reqBody with
  | None => true
  | Some _ => false
  end.

(** The invariant of a skill list: names are unique without regard to
    case. *)
Definition uniqueNames (sk : list Skill) : Prop :=
  NoDup ((fun s => toLowerCase (name s)) <$> sk).

(** The lower-cased names on file, as the add route collects them. *)
Definition namesOnFile (sk : list Skill) : gset string :=
  list_to_set ((fun s => toLowerCase (name s)) <$> sk).

(** The skill is named [skillName], case ignored: the test of the
    delete route. *)
Definition namedLike (skillName : string) (s : Skill) : bool :=
  String.eqb (toLowerCase (name s)) (toLowerCase skillName).

(** The labels of the issue are a value the template can search: none
    (or a falsy value), an array or a string. *)
Definition labelsUsable (issueData : JsVal) : bool :=
  match Js.orElse (getOpt issueData "labels") (VArr []) with
  | VArr _ | VStr _ => true
  | _ => false
  end.

(** A character that ends or separates the parts of a URL. *)
Definition urlDelimiter (c : ascii) : bool :=
  existsb (Ascii.eqb c) ["&"; "="; "#"; "?"; "/"; " "; "+"; ";"; ":"; "@"]%char.

(** The entry [r] of the fallback answer is made from the hit [repo]:
    the fields copied from the hit, and the two placeholder fields
    within their ranges. *)
Definition madeFrom (repo r : JsVal) : Prop :=
  getOpt r "id" = getOpt repo "id" /\
  getOpt r "name" = getOpt repo "name" /\
  getOpt r "fullName" = getOpt repo "full_name" /\
  getOpt r "owner" = VObj [("login", getOpt (getOpt repo "owner") "login");
                           ("avatarUrl", getOpt (getOpt repo "owner") "avatar_url")] /\
  getOpt r "description" = getOpt repo "description" /\
  getOpt r "stars" = getOpt repo "stargazers_count" /\
  getOpt r "forks" = getOpt repo "forks_count" /\
  getOpt r "language" = getOpt repo "language" /\
  getOpt r "topics" = Js.orElse (getOpt repo "topics") (VArr []) /\
  getOpt r "updatedAt" = getOpt repo "updated_at" /\
  (exists g, getOpt r "goodFirstIssues" = VNum g /\ 5 <= g <= 24) /\
  (exists d, getOpt r "difficulty" = VStr d /\ d ∈ Repository.difficulties).

(** The fields of an object. *)
Definition fieldsOf (v : JsVal) : list (string * JsVal) :=
  match v with
  | VObj fs => fs
  | _ => []
  end.

(** The three difficulties the repository page gives an issue, and
    the time the template guide estimates for each. *)
Definition pageDifficulties : list (string * string) :=
  [("easy", "1-3 hours"); ("medium", "3-8 hours"); ("hard", "1-3 days")].

(** The day has contributions: the test of the streak loop. *)
Definition contributed (stringToNumber : string -> option Z) (day : JsVal) : bool :=
  Coercion.gt stringToNumber (getOpt day "contributionCount") 0.

(** The [k] days from index [i] on all have contributions. *)
Definition activeRun (stringToNumber : string -> option Z) (days : list JsVal)
  (i k : nat) : Prop :=
  forall j, (i <= j < i + k)%nat ->
            exists day, days !! j = Some day /\ contributed stringToNumber day = true.

(** The string is written in ASCII: there [toLowerCase] of the
    embedding, which changes the letters A to Z and nothing else, is
    the lowering of the code. *)
Definition isAscii (s : string) : bool :=
  forallb (fun c => (N_of_ascii c <? 128)%N) (list_ascii_of_string s).

(** The names of the skills are written in ASCII. *)
Definition asciiNames (sk : list Skill) : Prop :=
  Forall (fun s => isAscii (name s) = true) sk.

(** What is left of a skill list when the skills named [skillName],
    case ignored, are taken out: the others, as often as they occur and
    in their order. *)
Definition without (skillName : string) (sk : list Skill) : list Skill :=
  List.filter (fun s => negb (namedLike skillName s)) sk.

(** A template literal can print the value: it is no object with a
    key [toString] of its own (which hides the method that prints an
    object and makes the conversion throw), and no array with an
    element that cannot be printed. *)
Fixpoint interpolates (v : JsVal) : bool :=
  match v with
  | VArr items => forallb interpolates items
  | VObj fields => negb (existsb (fun kv => String.eqb (fst kv) "toString") fields)
  | _ => true
  end.

(** The values of a guide request that the template prints: the full
    name and the name of the repository, the title and the number of
    the issue. *)
Definition templateValues (reqBody : JsVal) : list JsVal :=
  [getOpt (getOpt reqBody "repoData") "fullName";
   getOpt (getOpt reqBody "repoData") "name";
   getOpt (getOpt reqBody "issueData") "title";
   getOpt (getOpt reqBody "issueData") "number"].

(** The seven checks of the profile completion: an avatar, a bio, a
    location, a company and an email are set, there is a skill, and
    there is a public repository. *)
Definition profileChecks (stringToNumber : string -> option Z) (user : JsVal)
  (skills : list JsVal) : list bool :=
  [truthy (getOpt user "avatar"); truthy (getOpt user "bio");
   truthy (getOpt user "location"); truthy (getOpt user "company");
   truthy (getOpt user "email");
   bool_decide (skills <> []);
   Coercion.gt stringToNumber (getOpt user "publicRepos") 0].

(** Every day of the calendar is an object to read a count from. *)
Definition readable (days : list JsVal) : Prop :=
  Forall (fun day => is_Some (get day "contributionCount")) days.

(** ** Scenario data *)

Definition cv : Resume := {| filename := "cv.pdf"; uploadedAt := 1700000000 |}.

(** A store with one user, who has a resume on file and the skills [sk]. *)
Definition storeOf (sk : list Skill) : gmap string User :=
  {[ "u1" := {| _id := "u1"; accessToken := None; skills := Some sk;
                resume := Some cv |} ]}.

(** The body of an add request with the skills [items]. *)
Definition addRequest (items : list JsVal) : JsVal := VObj [("skills", VArr items)].

Definition noCoercion {T : Type} (v : JsVal) : option T := None.

Definition reactRepo : JsVal :=
  VObj [("fullName", VStr "facebook/react"); ("name", VStr "react")].

Definition issue42 : JsVal :=
  VObj [("number", VNum 42); ("title", VStr "Fix bug"); ("difficulty", VStr "easy")].

Definition issueWithoutDifficulty : JsVal :=
  VObj [("number", VNum 7); ("title", VStr "Add docs")].

Definition guideRequest (repoData issueData : JsVal) : JsVal :=
  VObj [("repoData", repoData); ("issueData", issueData)].

Definition localEnv : Env := {| GITHUB_TOKEN := None; AI_SERVICE_URL_env := None |}.

Definition python : Skill :=
  {| name := "Python"; confidence := 90; category := "Language" |}.

Definition pythonUser : User :=
  {| _id := "u1"; accessToken := Some "gho_token"; skills := Some [python];
     resume := None |}.

Definition userWithoutSkills : User :=
  {| _id := "u2"; accessToken := None; skills := Some []; resume := None |}.

(** One hit of a GitHub repository search. *)
Definition hit (id : Z) (owner repo : string) (stars : Z) : JsVal :=
  VObj [("id", VNum id); ("name", VStr repo);
        ("full_name", VStr (owner +:+ "/" +:+ repo));
        ("owner", VObj [("login", VStr owner);
                        ("avatar_url", VStr ("https://avatars.githubusercontent.com/" +:+ owner))]);
        ("description", VNull);
        ("stargazers_count", VNum stars); ("forks_count", VNum 7);
        ("language", VStr "Python"); ("topics", VArr []);
        ("updated_at", VStr "2024-01-01T00:00:00Z")].

(** The AI service is down and the GitHub search gives [hits]. *)
Definition aiDown (hits : list JsVal) : World :=
  {| onPost := fun _ _ => Rejected;
     onGet := fun _ _ => Resolved (VObj [("total_count", VNum (Z.of_nat (length hits)));
                                         ("items", VArr hits)]);
     draws := [] |}.

(** The AI service answers [recs] as its recommendations; GitHub is not
    reachable. *)
Definition aiGives (recs : JsVal) : World :=
  {| onPost := fun _ _ => Resolved (VObj [("recommendations", recs)]);
     onGet := fun _ _ => Rejected;
     draws := [] |}.

(** An open issue as the GitHub API lists it. *)
Definition listedIssue : JsVal :=
  VObj [("id", VNum 9001); ("number", VNum 12); ("title", VStr "Crash on empty input");
        ("body", VNull);
        ("labels", VArr [VObj [("name", VStr "Bug"); ("color", VStr "d73a4a")];
                         VObj [("name", VStr "Help Wanted"); ("color", VStr "008672")]]);
        ("state", VStr "open"); ("created_at", VStr "2024-02-01T00:00:00Z");
        ("comments", VNum 1);
        ("user", VObj [("login", VStr "octocat"); ("avatar_url", VNull)])].


(** A user of the dashboard with every profile field set. *)
Definition fullProfile : JsVal :=
  VObj [("avatar", VStr "https://avatars.githubusercontent.com/u/1");
        ("bio", VStr "Maintainer"); ("location", VStr "Pune");
        ("company", VStr "ACME"); ("email", VStr "dev@example.org");
        ("publicRepos", VNum 12)].

(** A calendar day with [n] contributions. *)
Definition dayWith (n : Z) : JsVal :=
  VObj [("contributionCount", VNum n); ("date", VStr "2024-03-01")].

(** Neither upstream service is reachable. *)
Definition allDown : World :=
  {| onPost := fun _ _ => Rejected; onGet := fun _ _ => Rejected; draws := [] |}.

(** * Properties *)

(** ** The sort of the skill list *)

Section SortFacts.
Context {A : Type} (cmp : A -> A -> Z).

Lemma insertSorted_perm (x : A) (l : list A) : insertSorted cmp x l ≡ₚ x :: l.
Proof.
  induction l as [|y l IH]; simpl; [done|].
  destruct (0 <? cmp x y); [|done].
  rewrite IH. apply Permutation_swap.
Qed.

Lemma sort_perm (l : list A) : sort cmp l ≡ₚ l.
Proof.
  induction l as [|x l IH]; simpl; [done|].
  by rewrite insertSorted_perm, IH.
Qed.

Lemma sort_length (l : list A) : length (sort cmp l) = length l.
Proof. by rewrite sort_perm. Qed.
End SortFacts.

Lemma insertSorted_snd (p : nat * Skill) (l : list (nat * Skill)) :
  (insertSorted byConfidenceDescAt p l).*2 =
  insertSorted Repository.byConfidenceDesc (snd p) (l.*2).
Proof.
  induction l as [|q l IH]; [done|].
  cbn [insertSorted fmap list_fmap]. unfold byConfidenceDescAt at 1.
  destruct (0 <? Repository.byConfidenceDesc (snd p) (snd q)); [|done].
  cbn [fmap list_fmap]. f_equal. apply IH.
Qed.

Lemma sort_snd (l : list (nat * Skill)) :
  (sort byConfidenceDescAt l).*2 = sort Repository.byConfidenceDesc (l.*2).
Proof.
  induction l as [|p l IH]; [done|].
  cbn [sort fmap list_fmap]. rewrite insertSorted_snd. f_equal. apply IH.
Qed.

Lemma insertSorted_ranked (p : nat * Skill) (l : list (nat * Skill)) :
  StronglySorted ranked l ->
  Forall (fun q => (fst p < fst q)%nat) l ->
  StronglySorted ranked (insertSorted byConfidenceDescAt p l).
Proof.
  induction l as [|q l IH]; intros Hs Hlt; simpl.
  - repeat constructor.
  - apply StronglySorted_inv in Hs as [Hs Hq].
    apply Forall_cons in Hlt as [Hpq Hlt].
    unfold byConfidenceDescAt at 1, Repository.byConfidenceDesc.
    destruct (0 <? confidence (snd q) - confidence (snd p)) eqn:E.
    + apply Z.ltb_lt in E. constructor; [by apply IH|].
      rewrite insertSorted_perm. constructor; [left; lia | done].
    + apply Z.ltb_ge in E. constructor; [by constructor|].
      constructor; [unfold ranked; lia|].
      rewrite Forall_forall in Hq, Hlt |- *. intros r Hr.
      specialize (Hq r Hr). specialize (Hlt r Hr).
      unfold ranked in *. lia.
Qed.

Lemma sort_ranked (l : list (nat * Skill)) :
  StronglySorted (fun p q => (fst p < fst q)%nat) l ->
  StronglySorted ranked (sort byConfidenceDescAt l).
Proof.
  induction l as [|p l IH]; intros Hs; simpl; [constructor|].
  apply StronglySorted_inv in Hs as [Hs Hp].
  apply insertSorted_ranked; [by apply IH|].
  by rewrite sort_perm.
Qed.

Lemma indexed_sorted {A : Type} (l : list A) (k : nat) :
  StronglySorted (fun p q : nat * A => (fst p < fst q)%nat) (zip (seq k (length l)) l).
Proof.
  revert k. induction l as [|x l IH]; intros k; simpl; constructor; [apply IH|].
  apply Forall_forall. intros [i y] Hin.
  apply elem_of_lookup_zip_with in Hin as (j & a & b & Heq & Ha & _).
  inversion Heq; subst. apply lookup_seq in Ha. simpl. lia.
Qed.

Lemma indexed_lookup {A : Type} (l : list A) (p : nat * A) :
  p ∈ zip (seq 0 (length l)) l -> l !! fst p = Some (snd p).
Proof.
  intros Hin.
  apply elem_of_lookup_zip_with in Hin as (j & a & b & -> & Ha & Hb).
  apply lookup_seq in Ha as [-> _]. done.
Qed.

Lemma ranked_positions (sk : list Skill) (l : list (nat * Skill)) :
  Forall (fun p => sk !! fst p = Some (snd p)) l ->
  StronglySorted ranked l ->
  StronglySorted (ranksBefore sk) (l.*1).
Proof.
  intros Hl Hs. induction Hs as [|p l Hs IH Hp]; simpl; [constructor|].
  apply Forall_cons in Hl as [Hp0 Hl].
  constructor; [by apply IH|].
  apply Forall_fmap, Forall_forall. intros q Hq. simpl.
  rewrite Forall_forall in Hp, Hl.
  unfold ranksBefore. rewrite Hp0, (Hl q Hq). by apply Hp.
Qed.

Lemma ranksBefore_antisym (sk : list Skill) (i j : nat) :
  ranksBefore sk i j -> ranksBefore sk j i -> i = j.
Proof.
  unfold ranksBefore. destruct (sk !! i), (sk !! j); try done. lia.
Qed.

(** C3. The query basis is the names of the first five positions of the
    skill list when all positions are put in the order "higher
    confidence first, equal confidence in insertion order"; there is
    one such order of the positions. *)
Theorem top_skills_by_confidence_then_insertion (sk : list Skill) :
  exists order : list nat,
    order ≡ₚ seq 0 (length sk) /\
    StronglySorted (ranksBefore sk) order /\
    (forall order', order' ≡ₚ seq 0 (length sk) ->
                    StronglySorted (ranksBefore sk) order' -> order' = order) /\
    Some <$> Repository.topSkills sk = (fun i => name <$> sk !! i) <$> take 5 order.
Proof.
  set (l := sort byConfidenceDescAt (zip (seq 0 (length sk)) sk)).
  assert (Hl : Forall (fun p => sk !! fst p = Some (snd p)) l).
  { unfold l. rewrite sort_perm. apply Forall_forall. apply indexed_lookup. }
  assert (Hperm : l.*1 ≡ₚ seq 0 (length sk)).
  { unfold l. rewrite sort_perm. rewrite fst_zip; [done|]. by rewrite length_seq. }
  assert (Hsorted : StronglySorted (ranksBefore sk) (l.*1)).
  { apply ranked_positions; [done|]. apply sort_ranked, indexed_sorted. }
  exists (l.*1). split; [done|]. split; [done|]. split.
  - intros order' Hperm' Hsorted'.
    apply (StronglySorted_unique_strong (ranksBefore sk)); [|done|done|].
    + intros i j _ _. apply ranksBefore_antisym.
    + by rewrite Hperm, Hperm'.
  - unfold Repository.topSkills.
    replace sk with ((zip (seq 0 (length sk)) sk).*2) at 1
      by (apply snd_zip; by rewrite length_seq).
    rewrite <- sort_snd. fold l.
    rewrite <- !fmap_take, <- !list_fmap_compose.
    apply Forall_fmap_ext_1.
    eapply Forall_impl; [apply Forall_take, Hl|].
    intros p Hp. simpl. by rewrite Hp.
Qed.

(** Seven skills with ties at 90 and at 50: the two at 90 come first in
    the order they were added, then 70, then the first two of the
    three at 50. *)
Example top_skills_of_seven :
  Repository.topSkills
    [ {| name := "Go"; confidence := 50; category := "Language" |};
      {| name := "Rust"; confidence := 90; category := "Language" |};
      {| name := "SQL"; confidence := 50; category := "Database" |};
      {| name := "React"; confidence := 90; category := "Frontend" |};
      {| name := "Bash"; confidence := 10; category := "Tool" |};
      {| name := "Docker"; confidence := 70; category := "Tool" |};
      {| name := "Vue"; confidence := 50; category := "Frontend" |} ]
  = ["Rust"; "React"; "Docker"; "Go"; "SQL"].
Proof. reflexivity. Qed.

(** ** Running a handler *)

Lemma run_bind {A B : Type} (p : Prog A) (f : A -> Prog B) (w : World) (ds : list Z) :
  run (bind p f) w ds =
  let '(a, tr1, ds1) := run p w ds in
  let '(b, tr2, ds2) := run (f a) w ds1 in
  (b, (tr1 ++ tr2)%list, ds2).
Proof.
  revert ds. induction p as [r|url payload timeout k IH|url headers k IH|n k IH];
    intros ds; simpl.
  - by destruct (run (f r) w ds) as [[b tr2] ds2].
  - rewrite IH. destruct (run (k _) w ds) as [[a tr1] ds1].
    by destruct (run (f a) w ds1) as [[b tr2] ds2].
  - rewrite IH. destruct (run (k _) w ds) as [[a tr1] ds1].
    by destruct (run (f a) w ds1) as [[b tr2] ds2].
  - rewrite IH. destruct (run (k _) w (tl ds)) as [[a tr1] ds1].
    by destruct (run (f a) w ds1) as [[b tr2] ds2].
Qed.

Lemma get_None (v : JsVal) (k k' : string) : get v k = None -> get v k' = None.
Proof. by destruct v. Qed.

Lemma get_is_Some (v : JsVal) (k k' : string) : is_Some (get v k) -> is_Some (get v k').
Proof. destruct v; simpl; intros [x Hx]; try done; eauto. Qed.

(** ** The fallback search of the recommendation route *)

Lemma mapRepo_wellFormed (top : list string) (repo : JsVal) (index : Z) (w : World)
  (ds : list Z) :
  wellFormed repo = true ->
  exists r tr ds',
    run (Repository.mapRepo top repo index) w ds = (Some r, tr, ds') /\
    randomOnly tr /\ reshapedAt top index r.
Proof.
  unfold wellFormed, Repository.mapRepo. intros Hwf.
  destruct (get repo "owner") as [owner|] eqn:Ho; [|done].
  destruct (get_is_Some repo "owner" "id") as [id ->]; [by rewrite Ho|].
  apply bool_decide_eq_true in Hwf. destruct Hwf as [login Hl]. rewrite Hl.
  destruct (get_is_Some owner "login" "avatar_url") as [avatar ->]; [by rewrite Hl|].
  simpl. do 3 eexists. split; [reflexivity|]. split.
  - repeat constructor.
  - split; reflexivity.
Qed.

Lemma mapRepo_malformed (top : list string) (repo : JsVal) (index : Z) (w : World)
  (ds : list Z) :
  wellFormed repo = false ->
  run (Repository.mapRepo top repo index) w ds = (None, [], ds).
Proof.
  unfold wellFormed, Repository.mapRepo. intros Hwf.
  destruct (get repo "owner") as [owner|] eqn:Ho.
  - destruct (get repo "id"); [|done].
    apply bool_decide_eq_false in Hwf.
    destruct (get owner "login") as [login|] eqn:Hl; [by destruct Hwf|].
    by destruct (get owner "avatar_url").
  - by rewrite (get_None repo "owner" "id").
Qed.

Lemma mapRepos_wellFormed (top : list string) (items : list JsVal) (index : Z)
  (w : World) (ds : list Z) :
  forallb wellFormed items = true ->
  exists rs tr ds',
    run (Repository.mapRepos top items index) w ds = (Some rs, tr, ds') /\
    randomOnly tr /\ length rs = length items /\
    forall (i : nat) r, rs !! i = Some r -> reshapedAt top (index + Z.of_nat i) r.
Proof.
  revert index ds. induction items as [|repo items IH]; intros index ds Hwf.
  - exists [], [], ds. split; [done|]. split; [constructor|]. split; [done|].
    intros i r Hr. done.
  - simpl in Hwf. apply andb_true_iff in Hwf as [Hrepo Hitems].
    destruct (mapRepo_wellFormed top repo index w ds Hrepo)
      as (r & tr1 & ds1 & Hrun1 & Htr1 & Hr).
    destruct (IH (index + 1) ds1 Hitems) as (rs & tr2 & ds2 & Hrun2 & Htr2 & Hlen & Hrs).
    exists (r :: rs), (tr1 ++ tr2)%list, ds2.
    cbn [Repository.mapRepos]. rewrite run_bind, Hrun1. rewrite run_bind, Hrun2.
    simpl. rewrite app_nil_r.
    split; [done|]. split; [by apply Forall_app|]. split; [by rewrite Hlen|].
    intros [|i] r' Hr'; simpl in Hr'.
    + inversion Hr'; subst. by rewrite Z.add_0_r.
    + replace (index + Z.of_nat (S i)) with (index + 1 + Z.of_nat i) by lia.
      by apply Hrs.
Qed.

Lemma mapRepos_malformed (top : list string) (items : list JsVal) (index : Z)
  (w : World) (ds : list Z) :
  forallb wellFormed items = false ->
  exists tr ds',
    run (Repository.mapRepos top items index) w ds = (None, tr, ds') /\ randomOnly tr.
Proof.
  revert index ds. induction items as [|repo items IH]; intros index ds Hwf; [done|].
  simpl in Hwf. cbn [Repository.mapRepos]. rewrite run_bind.
  destruct (wellFormed repo) eqn:Hrepo.
  - destruct (mapRepo_wellFormed top repo index w ds Hrepo)
      as (r & tr1 & ds1 & -> & Htr1 & _).
    destruct (IH (index + 1) ds1 Hwf) as (tr2 & ds2 & Hrun2 & Htr2).
    rewrite run_bind, Hrun2. simpl. do 2 eexists. split; [reflexivity|].
    rewrite app_nil_r. by apply Forall_app.
  - rewrite (mapRepo_malformed top repo index w ds Hrepo). simpl.
    do 2 eexists. split; [reflexivity|constructor].
Qed.

Lemma fallback_succeeds (env : Env) (user : User) (top : list string) (w : World)
  (ds : list Z) (items : list JsVal) :
  searchAnswer w env user top = Some items ->
  forallb wellFormed items = true ->
  exists rs tr ds',
    run (Repository.fallback env user top) w ds =
      (Repository.success (VArr rs),
       EvGet (Repository.GITHUB_API_URL +:+ Repository.fallbackEndpoint top)
         (Repository.githubHeaders env (accessToken user)) :: tr, ds') /\
    randomOnly tr /\ length rs = length items /\
    forall (i : nat) r, rs !! i = Some r -> reshapedAt top (Z.of_nat i) r.
Proof.
  intros Hsearch Hwf.
  destruct (mapRepos_wellFormed top items 0 w ds Hwf)
    as (rs & tr & ds' & Hrun & Htr & Hlen & Hrs).
  exists rs, tr, ds'. split; [|done].
  unfold Repository.fallback, Repository.githubRequest. unfold searchAnswer in Hsearch.
  cbn [bind run].
  destruct (onGet w _ _) as [|data]; [done|].
  destruct (get data "items") as [[]|]; try done.
  inversion Hsearch; subst. rewrite run_bind, Hrun. simpl. by rewrite app_nil_r.
Qed.

Lemma fallback_fails (env : Env) (user : User) (top : list string) (w : World)
  (ds : list Z) :
  fallbackSucceeds w env user top = false ->
  exists tr ds',
    run (Repository.fallback env user top) w ds =
      (Repository.failed,
       EvGet (Repository.GITHUB_API_URL +:+ Repository.fallbackEndpoint top)
         (Repository.githubHeaders env (accessToken user)) :: tr, ds') /\
    randomOnly tr.
Proof.
  unfold fallbackSucceeds, searchAnswer, Repository.fallback, Repository.githubRequest.
  intros Hfail. cbn [bind run].
  destruct (onGet w _ _) as [|data];
    [exists [], ds; split; [done|constructor]|].
  destruct (get data "items") as [[]|];
    try (exists [], ds; split; [done|constructor]).
  destruct (mapRepos_malformed top items 0 w ds Hfail) as (tr & ds' & Hrun & Htr).
  exists tr, ds'. split; [|done].
  rewrite run_bind, Hrun. simpl. by rewrite app_nil_r.
Qed.

Lemma recommendations_run (env : Env) (user : User) (s : Skill) (rest : list Skill)
  (w : World) (ds : list Z) :
  skills user = Some (s :: rest) ->
  let top := Repository.topSkills (s :: rest) in
  let call := EvPost (AI_SERVICE_URL env +:+ "/api/recommend")
                (Repository.recommendBody user top) 120000 in
  run (Repository.recommendations env user) w ds =
    match aiAnswer w env user top with
    | Some recs => (Repository.success recs, [call], ds)
    | None =>
        let '(r, tr, ds') := run (Repository.fallback env user top) w ds in
        (r, call :: tr, ds')
    end.
Proof.
  intros Hsk. unfold Repository.recommendations, aiAnswer. rewrite Hsk. cbn [run].
  destruct (onPost w _ _) as [|data].
  - by destruct (run _ w ds) as [[r tr] ds'].
  - destruct (get data "recommendations").
    + done.
    + by destruct (run _ w ds) as [[r tr] ds'].
Qed.

(** ** The recommendation route *)

(** C2. A user whose skill list is absent or empty is answered 400 and
    the handler makes no call at all: it is the bare answer. *)
Theorem recommend_without_skills_is_rejected_before_any_call (env : Env) (user : User) :
  skills user = None \/ skills user = Some [] ->
  Repository.recommendations env user = Ret Repository.noSkills /\
  status Repository.noSkills = 400 /\
  forall w, exec (Repository.recommendations env user) w = (Repository.noSkills, []).
Proof.
  intros [H|H]; unfold Repository.recommendations, exec; rewrite H; done.
Qed.

Lemma recommend_without_skills_witness :
  Repository.recommendations localEnv userWithoutSkills = Ret Repository.noSkills /\
  status Repository.noSkills = 400 /\
  forall w, exec (Repository.recommendations localEnv userWithoutSkills) w
            = (Repository.noSkills, []).
Proof.
  apply (recommend_without_skills_is_rejected_before_any_call localEnv userWithoutSkills).
  right. reflexivity.
Defined.

Lemma topSkills_cons (s : Skill) (rest : list Skill) :
  exists t1 more, Repository.topSkills (s :: rest) = t1 :: more.
Proof.
  assert (Hlen : (0 < length (Repository.topSkills (s :: rest)))%nat).
  { unfold Repository.topSkills.
    rewrite length_fmap, length_take, sort_length. simpl. lia. }
  destruct (Repository.topSkills (s :: rest)) as [|t1 more]; [simpl in Hlen; lia|eauto].
Qed.

Lemma topSkills_length (sk : list Skill) : (length (Repository.topSkills sk) <= 5)%nat.
Proof. unfold Repository.topSkills. rewrite length_fmap, length_take. lia. Qed.

(** C1 (as the code has it). For a user with at least one skill the
    answer is the list of whichever path succeeds: the AI service's
    [recommendations] as they are, else one entry for each hit of the
    GitHub search; the list may be empty. The route answers 500 exactly
    when the AI call and the fallback both fail. *)
Theorem recommend_answers_with_the_upstream_list (env : Env) (user : User) (s : Skill)
  (rest : list Skill) (w : World) :
  skills user = Some (s :: rest) ->
  let top := Repository.topSkills (s :: rest) in
  let resp := fst (exec (Repository.recommendations env user) w) in
  match aiAnswer w env user top with
  | Some recs => resp = Repository.success recs
  | None =>
      match searchAnswer w env user top with
      | Some items =>
          if forallb wellFormed items
          then exists rs, resp = Repository.success (VArr rs) /\ length rs = length items
          else resp = Repository.failed
      | None => resp = Repository.failed
      end
  end /\
  (status resp = 500 <->
   aiAnswer w env user top = None /\ fallbackSucceeds w env user top = false).
Proof.
  intros Hsk top resp. unfold resp, exec.
  rewrite (recommendations_run env user s rest w (draws w) Hsk). fold top.
  destruct (aiAnswer w env user top) as [recs|] eqn:Hai.
  { split; [done|]. simpl. split; [done|]. by intros [? _]. }
  destruct (fallbackSucceeds w env user top) eqn:Hfb.
  - unfold fallbackSucceeds in Hfb.
    destruct (searchAnswer w env user top) as [items|] eqn:Hsearch; [|done].
    rewrite Hfb.
    destruct (fallback_succeeds env user top w (draws w) items Hsearch Hfb)
      as (rs & tr & ds' & -> & _ & Hlen & _).
    simpl. split; [by exists rs|]. split; [done|]. by intros [_ ?].
  - destruct (fallback_fails env user top w (draws w) Hfb) as (tr & ds' & -> & _).
    simpl. split; [|done].
    unfold fallbackSucceeds in Hfb.
    destruct (searchAnswer w env user top) as [items|]; [by rewrite Hfb|done].
Qed.

Lemma recommend_answers_witness :
  fst (exec (Repository.recommendations localEnv pythonUser)
         (aiGives (VArr [VStr "psf/requests"])))
  = Repository.success (VArr [VStr "psf/requests"]).
Proof.
  exact (proj1 (recommend_answers_with_the_upstream_list localEnv pythonUser python []
                  (aiGives (VArr [VStr "psf/requests"])) eq_refl)).
Defined.

(** C1, as stated, fails: with a skill on file and the AI service
    answering an empty list the route answers success with the empty
    list, and so does the fallback when the search has no hit. *)
Lemma recommend_success_can_be_empty :
  skills pythonUser = Some [python] /\
  aiAnswer (aiGives (VArr [])) localEnv pythonUser (Repository.topSkills [python])
    = Some (VArr []) /\
  fst (exec (Repository.recommendations localEnv pythonUser) (aiGives (VArr [])))
    = Repository.success (VArr []) /\
  fallbackSucceeds (aiDown []) localEnv pythonUser (Repository.topSkills [python]) = true /\
  fst (exec (Repository.recommendations localEnv pythonUser) (aiDown []))
    = Repository.success (VArr []).
Proof. repeat split. Qed.

Lemma occursIn_middle (pre t post : string) : occursIn t (pre +:+ t +:+ post).
Proof. by exists pre, post. Qed.

(** C4. When the AI call fails, the route issues one GitHub repository
    search: the query is the names of the top skills joined by [OR]
    followed by the [good-first-issues:>0] filter, sorted by stars in
    descending order, ten results a page. Each hit at rank [i] is
    answered with [matchScore = 95 - 5 * i], so scores never increase
    with the rank, and with a [matchReason] that names the first of the
    top skills. *)
Theorem fallback_search_query_and_scores (env : Env) (user : User) (s : Skill)
  (rest : list Skill) (w : World) :
  skills user = Some (s :: rest) ->
  let top := Repository.topSkills (s :: rest) in
  aiAnswer w env user top = None ->
  let result := exec (Repository.recommendations env user) w in
  exists t1 more tr,
    top = t1 :: more /\ (length top <= 5)%nat /\
    snd result =
      EvPost (AI_SERVICE_URL env +:+ "/api/recommend")
        (Repository.recommendBody user top) 120000
      :: EvGet ("https://api.github.com" +:+ "/search/repositories?q=" +:+
                encodeURIComponent (join " OR " top +:+ " good-first-issues:>0") +:+
                "&sort=stars&order=desc&per_page=10")
           (Repository.githubHeaders env (accessToken user))
      :: tr /\
    randomOnly tr /\
    forall items,
      searchAnswer w env user top = Some items ->
      forallb wellFormed items = true ->
      exists rs,
        fst result = Repository.success (VArr rs) /\
        length rs = length items /\
        forall (i : nat) r, rs !! i = Some r ->
          getOpt r "matchScore" = VNum (95 - 5 * Z.of_nat i) /\
          getOpt r "matchReason" = VStr ("Matches your " +:+ t1 +:+ " skills") /\
          occursIn t1 ("Matches your " +:+ t1 +:+ " skills") /\
          forall r', rs !! S i = Some r' ->
            exists a b, getOpt r "matchScore" = VNum a /\
                        getOpt r' "matchScore" = VNum b /\ a >= b.
Proof.
  intros Hsk top Hai result.
  destruct (topSkills_cons s rest) as (t1 & more & Htop). fold top in Htop.
  assert (Hrun := recommendations_run env user s rest w (draws w) Hsk).
  cbv zeta in Hrun. fold top in Hrun. rewrite Hai in Hrun.
  unfold result, exec. rewrite Hrun. clear Hrun.
  destruct (fallbackSucceeds w env user top) eqn:Hfb.
  - unfold fallbackSucceeds in Hfb.
    destruct (searchAnswer w env user top) as [items|] eqn:Hsearch; [|done].
    destruct (fallback_succeeds env user top w (draws w) items Hsearch Hfb)
      as (rs & tr & ds' & -> & Htr & Hlen & Hrs).
    exists t1, more, tr. split; [done|]. split; [apply topSkills_length|].
    split; [done|]. split; [done|].
    intros items' Hitems' _. inversion Hitems'; subst items'.
    exists rs. split; [done|]. split; [done|].
    intros i r Hr. destruct (Hrs i r Hr) as [Hscore Hreason].
    rewrite Htop in Hreason. simpl in Hreason.
    split; [rewrite Hscore; f_equal; lia|]. split; [done|].
    split; [apply occursIn_middle|].
    intros r' Hr'. destruct (Hrs (S i) r' Hr') as [Hscore' _].
    exists (95 - Z.of_nat i * 5), (95 - Z.of_nat (S i) * 5).
    split; [done|]. split; [done|]. lia.
  - destruct (fallback_fails env user top w (draws w) Hfb) as (tr & ds' & -> & Htr).
    exists t1, more, tr. split; [done|]. split; [apply topSkills_length|].
    split; [done|]. split; [done|].
    intros items Hitems Hwf. unfold fallbackSucceeds in Hfb.
    rewrite Hitems in Hfb. congruence.
Qed.

Lemma fallback_search_witness :
  exists rs,
    fst (exec (Repository.recommendations localEnv pythonUser)
           (aiDown [hit 1 "psf" "requests" 50000; hit 2 "pallets" "flask" 60000]))
    = Repository.success (VArr rs) /\
    length rs = 2%nat /\
    forall (i : nat) r, rs !! i = Some r ->
      getOpt r "matchScore" = VNum (95 - 5 * Z.of_nat i) /\
      getOpt r "matchReason" = VStr "Matches your Python skills".
Proof.
  destruct (fallback_search_query_and_scores localEnv pythonUser python []
              (aiDown [hit 1 "psf" "requests" 50000; hit 2 "pallets" "flask" 60000])
              eq_refl eq_refl)
    as (t1 & more & tr & Htop & _ & _ & _ & Hhits).
  injection Htop as <- <-.
  destruct (Hhits _ eq_refl eq_refl) as (rs & Hresp & Hlen & Hrs).
  exists rs. split; [exact Hresp|]. split; [exact Hlen|].
  intros i r Hr. destruct (Hrs i r Hr) as (Hscore & Hreason & _).
  split; [exact Hscore | exact Hreason].
Defined.

(** ** The guide route *)

Lemma namesRepository_get (reqBody : JsVal) :
  namesRepository reqBody = true ->
  get reqBody "repoData" = Some (getOpt reqBody "repoData").
Proof. unfold namesRepository, getOpt. by destruct (get reqBody "repoData"). Qed.

Lemma generate_run (env : Env) (reqUser : option User) (reqBody : JsVal) (w : World)
  (ds : list Z) :
  namesRepository reqBody = true ->
  run (Guide.generate env reqUser reqBody) w ds =
    (match guideAnswer w env reqUser reqBody with
     | Some guide => json (VObj [("success", VBool true); ("data", guide)])
     | None => Guide.templateResponse (getOpt reqBody "repoData") (getOpt reqBody "issueData")
     end,
     [EvPost (AI_SERVICE_URL env +:+ "/api/generate-guide")
        (Guide.aiPayload reqUser (getOpt reqBody "repoData")
           (getOpt reqBody "issueData") (getOpt reqBody "userContext")) 60000],
     ds).
Proof.
  intros Hrepo. unfold Guide.generate, guideAnswer.
  rewrite (namesRepository_get reqBody Hrepo).
  unfold namesRepository in Hrepo. apply andb_true_iff in Hrepo as [-> ->].
  cbn [negb orb run].
  destruct (onPost w _ _) as [|data]; [done|].
  by destruct (get data "guide").
Qed.

Lemma generate_unnamed (env : Env) (reqUser : option User) (reqBody : JsVal) :
  namesRepository reqBody = false ->
  Guide.generate env reqUser reqBody = Ret Guide.repoRequired \/
  Guide.generate env reqUser reqBody = Ret Guide.failed.
Proof.
  unfold Guide.generate, namesRepository, getOpt.
  destruct (get reqBody "repoData") as [repoData|]; [|by right].
  intros Hrepo. left.
  destruct (truthy repoData); [|done]. simpl in *. by rewrite Hrepo.
Qed.

(** C8. Two requests that take the template path with the same
    repository and issue data get the same answer, byte for byte,
    whoever asks, whatever skills they send and whatever the random
    generator would give; the path makes the AI call and nothing else. *)
Theorem template_guide_is_deterministic (env1 env2 : Env) (u1 u2 : option User)
  (b1 b2 : JsVal) (w1 w2 : World) :
  templatePath w1 env1 u1 b1 = true ->
  templatePath w2 env2 u2 b2 = true ->
  getOpt b1 "repoData" = getOpt b2 "repoData" ->
  getOpt b1 "issueData" = getOpt b2 "issueData" ->
  let r1 := exec (Guide.generate env1 u1 b1) w1 in
  let r2 := exec (Guide.generate env2 u2 b2) w2 in
  fst r1 = fst r2 /\
  stringify (body (fst r1)) = stringify (body (fst r2)) /\
  fst r1 = Guide.templateResponse (getOpt b1 "repoData") (getOpt b1 "issueData") /\
  (exists url payload timeout, snd r1 = [EvPost url payload timeout]).
Proof.
  intros H1 H2 Hrepo Hissue r1 r2. unfold templatePath in H1, H2.
  apply andb_true_iff in H1 as [Hn1 Ha1]. apply andb_true_iff in H2 as [Hn2 Ha2].
  unfold r1, r2, exec. rewrite !generate_run by done.
  destruct (guideAnswer w1 env1 u1 b1); [done|].
  destruct (guideAnswer w2 env2 u2 b2); [done|].
  simpl. rewrite Hrepo, Hissue. repeat split; eauto.
Qed.

Lemma template_guide_deterministic_witness :
  fst (exec (Guide.generate localEnv None (guideRequest reactRepo issue42)) allDown) =
  fst (exec (Guide.generate localEnv (Some pythonUser)
               (VObj [("repoData", reactRepo); ("issueData", issue42);
                      ("userContext", VObj [("skills", VArr [VStr "Rust"])])]))
         (aiDown [])).
Proof.
  exact (proj1 (template_guide_is_deterministic localEnv localEnv None (Some pythonUser)
                  (guideRequest reactRepo issue42)
                  (VObj [("repoData", reactRepo); ("issueData", issue42);
                         ("userContext", VObj [("skills", VArr [VStr "Rust"])])])
                  allDown (aiDown []) eq_refl eq_refl eq_refl eq_refl)).
Defined.

Lemma templateGuide_steps (repoData issueData guide : JsVal) :
  Guide.templateGuide repoData issueData = Some guide ->
  exists steps,
    getOpt guide "gettingStarted" = VArr (VStr <$> steps) /\ length steps = 10%nat.
Proof.
  unfold Guide.templateGuide. destruct (Guide.labelsInclude _ _); [|done].
  intros [= <-].
  exists (Guide.gettingStarted (toString (getOpt repoData "name"))
            (toString (Js.orElse (getOpt issueData "number") (VStr "")))).
  split; reflexivity.
Qed.

(** C9. With the AI service failing, the guide for issue 42 "Fix bug"
    (difficulty "easy") of facebook/react has ten getting-started steps,
    one of which contains "issue-42", and its estimated time is
    "1-3 hours". A template guide always has ten steps, and an issue
    without a difficulty is analysed as "medium". *)
Theorem template_guide_scenario :
  (forall (env : Env) (reqUser : option User) (w : World),
     guideAnswer w env reqUser (guideRequest reactRepo issue42) = None ->
     exists guide steps,
       fst (exec (Guide.generate env reqUser (guideRequest reactRepo issue42)) w) =
         json (VObj [("success", VBool true); ("data", guide);
                     ("isTemplate", VBool true)]) /\
       getOpt guide "gettingStarted" = VArr (VStr <$> steps) /\
       length steps = 10%nat /\
       (exists step, step ∈ steps /\ occursIn "issue-42" step) /\
       getOpt (getOpt guide "issueAnalysis") "estimatedTime" = VStr "1-3 hours") /\
  (forall repoData issueData guide : JsVal,
     Guide.templateGuide repoData issueData = Some guide ->
     exists steps,
       getOpt guide "gettingStarted" = VArr (VStr <$> steps) /\ length steps = 10%nat) /\
  (forall repoData issueData guide : JsVal,
     truthy (getOpt issueData "difficulty") = false ->
     Guide.templateGuide repoData issueData = Some guide ->
     getOpt (getOpt guide "issueAnalysis") "difficulty" = VStr "medium" /\
     getOpt (getOpt guide "issueAnalysis") "estimatedTime" = VStr "3-8 hours").
Proof.
  split; [|split].
  - intros env reqUser w Hai. unfold exec.
    rewrite generate_run by reflexivity. rewrite Hai.
    eexists. exists (Guide.gettingStarted "react" "42"). split; [reflexivity|].
    split; [reflexivity|]. split; [reflexivity|]. split; [|reflexivity].
    exists "Create a new branch: `git checkout -b fix/issue-42`".
    split; [set_solver|].
    by exists "Create a new branch: `git checkout -b fix/", "`".
  - apply templateGuide_steps.
  - intros repoData issueData guide Hd. unfold Guide.templateGuide, Js.orElse.
    rewrite Hd. destruct (Guide.labelsInclude _ _); [|done].
    by intros [= <-].
Qed.

Lemma template_guide_scenario_witness :
  (exists guide steps,
     fst (exec (Guide.generate localEnv None (guideRequest reactRepo issue42)) allDown) =
       json (VObj [("success", VBool true); ("data", guide);
                   ("isTemplate", VBool true)]) /\
     getOpt guide "gettingStarted" = VArr (VStr <$> steps) /\
     length steps = 10%nat /\
     (exists step, step ∈ steps /\ occursIn "issue-42" step) /\
     getOpt (getOpt guide "issueAnalysis") "estimatedTime" = VStr "1-3 hours") /\
  (exists guide,
     Guide.templateGuide reactRepo issueWithoutDifficulty = Some guide /\
     getOpt (getOpt guide "issueAnalysis") "difficulty" = VStr "medium").
Proof.
  split.
  - exact (proj1 template_guide_scenario localEnv None allDown eq_refl).
  - eexists. split; [reflexivity|].
    exact (proj1 (proj2 (proj2 template_guide_scenario) reactRepo issueWithoutDifficulty
                    _ eq_refl eq_refl)).
Defined.

(** ** The flag that tells the source of an answer *)

(** C5 (as the code has it). A successful guide answer carries
    [isTemplate: true] exactly when it is the template, and has no such
    field when it comes from the AI service. A successful recommendation
    answer is [{success: true, data}] on both paths: nothing in it
    tells the source. *)
Theorem source_flag_on_guide_answers_only (env : Env) (w : World) :
  (forall (reqUser : option User) (reqBody : JsVal),
     let resp := fst (exec (Guide.generate env reqUser reqBody) w) in
     status resp = 200 ->
     match guideAnswer w env reqUser reqBody with
     | Some guide =>
         body resp = VObj [("success", VBool true); ("data", guide)] /\
         getOpt (body resp) "isTemplate" = VUndefined
     | None =>
         (exists guide,
            body resp = VObj [("success", VBool true); ("data", guide);
                              ("isTemplate", VBool true)]) /\
         getOpt (body resp) "isTemplate" = VBool true
     end) /\
  (forall user : User,
     let resp := fst (exec (Repository.recommendations env user) w) in
     status resp = 200 ->
     exists data, body resp = VObj [("success", VBool true); ("data", data)]).
Proof.
  split.
  - intros reqUser reqBody resp. unfold resp, exec.
    destruct (namesRepository reqBody) eqn:Hrepo.
    + rewrite generate_run by done.
      destruct (guideAnswer w env reqUser reqBody) as [guide|]; [done|].
      unfold Guide.templateResponse.
      destruct (Guide.templateGuide _ _) as [guide|]; [|done].
      intros _. split; [by exists guide|done].
    + destruct (generate_unnamed env reqUser reqBody Hrepo) as [-> | ->]; done.
  - intros user resp. unfold resp, exec.
    destruct (skills user) as [[|s rest]|] eqn:Hsk.
    + unfold Repository.recommendations. by rewrite Hsk.
    + rewrite (recommendations_run env user s rest w (draws w) Hsk).
      set (top := Repository.topSkills (s :: rest)).
      destruct (aiAnswer w env user top) as [recs|]; [by exists recs|].
      destruct (fallbackSucceeds w env user top) eqn:Hfb.
      * unfold fallbackSucceeds in Hfb.
        destruct (searchAnswer w env user top) as [items|] eqn:Hsearch; [|done].
        destruct (fallback_succeeds env user top w (draws w) items Hsearch Hfb)
          as (rs & tr & ds' & -> & _).
        by exists (VArr rs).
      * by destruct (fallback_fails env user top w (draws w) Hfb) as (tr & ds' & -> & _).
    + unfold Repository.recommendations. by rewrite Hsk.
Qed.

Lemma source_flag_witness :
  getOpt (body (fst (exec (Guide.generate localEnv None (guideRequest reactRepo issue42))
                       allDown))) "isTemplate" = VBool true /\
  exists data,
    body (fst (exec (Repository.recommendations localEnv pythonUser)
                 (aiDown [hit 1 "psf" "requests" 50000])))
    = VObj [("success", VBool true); ("data", data)].
Proof.
  split.
  - exact (proj2 (proj1 (source_flag_on_guide_answers_only localEnv allDown)
                    None (guideRequest reactRepo issue42) eq_refl)).
  - exact (proj2 (source_flag_on_guide_answers_only localEnv
                    (aiDown [hit 1 "psf" "requests" 50000])) pythonUser eq_refl).
Defined.

(** C5, as stated, fails for recommendations: the answer of the
    fallback to a one-hit search and the answer when the AI service
    recommends that same entry are one and the same answer. *)
Lemma recommendation_answer_does_not_tell_its_source :
  let top := Repository.topSkills [python] in
  let fromFallback :=
    fst (exec (Repository.recommendations localEnv pythonUser)
           (aiDown [hit 1 "psf" "requests" 50000])) in
  let recs := getOpt (body fromFallback) "data" in
  let fromAi :=
    fst (exec (Repository.recommendations localEnv pythonUser) (aiGives recs)) in
  aiAnswer (aiDown [hit 1 "psf" "requests" 50000]) localEnv pythonUser top = None /\
  aiAnswer (aiGives recs) localEnv pythonUser top = Some recs /\
  status fromFallback = 200 /\
  fromAi = fromFallback.
Proof. repeat split. Qed.

(** ** The skill routes *)

(** C6 (the code departs from it). A batch with two names that differ
    only in case, sent for a user without skills, is stored whole: both
    entries pass the filter, which looks at the names already on file
    and not at the batch, and the stored list breaks the invariant. *)
Theorem add_skills_stores_duplicates_of_a_batch
  (odmNumber : JsVal -> option Z) (odmString : JsVal -> option string) :
  let request := addRequest [VObj [("name", VStr "React")]; VObj [("name", VStr "react")]] in
  let result := Skills.postSkills odmNumber odmString "u1" request (storeOf []) in
  let stored := [ {| name := "React"; confidence := 80; category := "Manual" |};
                  {| name := "react"; confidence := 80; category := "Manual" |} ] in
  uniqueNames [] /\
  status (fst result) = 200 /\
  snd result !! "u1" ≫= skills = Some stored /\
  ~ uniqueNames stored.
Proof.
  intros request result stored. split; [constructor|]. split; [reflexivity|].
  split; [reflexivity|].
  unfold uniqueNames, stored. cbn. intros Hnd.
  apply NoDup_cons in Hnd as [Hnot _]. apply Hnot. set_solver.
Qed.

(** No DELETE on the [all] path removes the resume: the request runs
    the delete-by-name handler, which leaves the resume as it is. *)
Lemma delete_all_keeps_the_resume (uid : string) (store : gmap string User)
  (user : User) :
  store !! uid = Some user ->
  exists user',
    snd (Skills.serveDelete uid ["all"] store) !! uid = Some user' /\
    resume user' = resume user.
Proof.
  intros Huser.
  change (Skills.serveDelete uid ["all"] store)
    with (Skills.deleteSkillByName uid "all" store).
  unfold Skills.deleteSkillByName. rewrite Huser. cbn [mbind option_bind].
  destruct (skills user) as [existing|]; cbn [fmap option_fmap option_map];
    [|by exists user].
  destruct (_ =? _)%nat; cbn [snd]; [by exists user|].
  eexists. split; [by rewrite lookup_insert_eq|done].
Qed.

(** C7 (the code departs from it). DELETE /api/skills/all is served by
    the route registered first, [/:skillName], with ["all"] as the
    name: the clear-all handler is never reached. A user with a skill
    and a resume on file is answered 404 and keeps both, where the
    clear-all handler would have removed them. *)
Theorem delete_all_is_served_as_delete_by_name :
  Skills.dispatch Skills.routes Skills.DELETE ["all"]
    = Some (Skills.DeleteSkill, [("skillName", "all")]) /\
  (forall uid store,
     Skills.serveDelete uid ["all"] store = Skills.deleteSkillByName uid "all" store) /\
  Skills.serveDelete "u1" ["all"] (storeOf [python])
    = (statusJson 404 (VObj [("success", VBool false);
                             ("message", VStr "Skill not found")]),
       storeOf [python]) /\
  snd (Skills.clearAll "u1" (storeOf [python])) !! "u1"
    = Some {| _id := "u1"; accessToken := None; skills := Some []; resume := None |}.
Proof.
  split; [reflexivity|]. split; [reflexivity|]. split; reflexivity.
Qed.




(** What a successful add has done. *)
Lemma postSkills_success (odmNumber : JsVal -> option Z)
  (odmString : JsVal -> option string) (uid : string) (reqBody : JsVal)
  (store : gmap string User) :
  status (fst (Skills.postSkills odmNumber odmString uid reqBody store)) = 200 ->
  exists user existing items kept docs,
    store !! uid = Some user /\ skills user = Some existing /\
    get reqBody "skills" = Some (VArr items) /\
    Skills.filterNew (namesOnFile existing) items = Some kept /\
    mapM (Skills.castSkill odmNumber odmString) (Skills.newSkill <$> kept) = Some docs /\
    Skills.postSkills odmNumber odmString uid reqBody store =
      (json (VObj [
         ("success", VBool true);
         ("message", VStr ("Added " +:+
            numToString (Z.of_nat (length (Skills.newSkill <$> kept))) +:+
            " new skill(s)"));
         ("data", VObj [("skills", Skills.skillsToJs (existing ++ docs));
                        ("added", VArr (Skills.newSkill <$> kept))])]),
       <[uid := Skills.setSkills user (existing ++ docs)]> store).
Proof.
  unfold Skills.postSkills.
  destruct (get reqBody "skills") as [v|] eqn:Hget; [|done].
  destruct v as [| | | | |items|]; try done.
  destruct items as [|item items]; [done|].
  remember (item :: items) as batch eqn:Hbatch.
  destruct (store !! uid) as [user|] eqn:Huser; [|done].
  cbn [mbind option_bind]. destruct (skills user) as [existing|] eqn:Hsk; [|done].
  cbn [fmap option_fmap option_map]. fold (namesOnFile existing).
  destruct (Skills.filterNew (namesOnFile existing) batch) as [kept|] eqn:Hkept;
    [|done].
  destruct (mapM _ _) as [docs|] eqn:Hdocs; [|done].
  intros _. by exists user, existing, batch, kept, docs.
Qed.




(** ** Where the invariant of skill names is kept *)

Lemma filterNew_names (S : gset string) (items kept : list JsVal) :
  Skills.filterNew S items = Some kept ->
  exists ns,
    Forall2 (fun skill n => Skills.lowerName skill = Some n) items ns /\
    Forall2 (fun skill n => Skills.lowerName skill = Some n) kept
      (filter (fun n => n ∉ S) ns).
Proof.
  revert kept. induction items as [|skill items IH]; intros kept; simpl.
  - intros [= <-]. exists []. split; constructor.
  - destruct (Skills.lowerName skill) as [n|] eqn:Hn; [|done].
    destruct (Skills.filterNew S items) as [kept'|]; [|done].
    destruct (IH kept' eq_refl) as (ns & Hitems & Hkept).
    intros [= <-]. exists (n :: ns). split; [by constructor|].
    rewrite filter_cons. case_bool_decide as Hin.
    + by rewrite decide_False by (by intros ?).
    + rewrite decide_True by done. by constructor.
Qed.

Lemma castSkill_lowerName (odmNumber : JsVal -> option Z)
  (odmString : JsVal -> option string) (skill : JsVal) (doc : Skill) (n : string) :
  Skills.castSkill odmNumber odmString (Skills.newSkill skill) = Some doc ->
  Skills.lowerName skill = Some n ->
  toLowerCase (name doc) = n.
Proof.
  unfold Skills.castSkill, Skills.lowerName, getOpt at 1.
  cbn [get Skills.newSkill lookupField String.eqb Ascii.eqb Bool.eqb andb].
  unfold getOpt at 1.
  destruct (get skill "name") as [[| | | |m| |]|]; try done.
  cbn [Skills.castString].
  destruct (Skills.castNumber _ _); [|done].
  destruct (Skills.castString _ _); [|done].
  by intros [= <-] [= <-].
Qed.

Lemma stored_names (odmNumber : JsVal -> option Z) (odmString : JsVal -> option string)
  (kept : list JsVal) (docs : list Skill) (ns : list string) :
  Forall2 (fun skill doc =>
             Skills.castSkill odmNumber odmString (Skills.newSkill skill) = Some doc)
    kept docs ->
  Forall2 (fun skill n => Skills.lowerName skill = Some n) kept ns ->
  (fun s => toLowerCase (name s)) <$> docs = ns.
Proof.
  intros Hdocs. revert ns. induction Hdocs as [|skill doc kept docs Hcast _ IH];
    intros ns Hns; inversion Hns; subst; [done|].
  cbn [fmap list_fmap]. f_equal; [|by apply IH].
  by eapply castSkill_lowerName.
Qed.

(** A successful add keeps the names unique when the names of the batch
    are themselves pairwise distinct without regard to case. *)
Lemma add_skills_keeps_names_unique_for_a_distinct_batch
  (odmNumber : JsVal -> option Z) (odmString : JsVal -> option string)
  (uid : string) (reqBody : JsVal) (store : gmap string User)
  (user : User) (existing : list Skill) (items : list JsVal) (ns : list string) :
  store !! uid = Some user -> skills user = Some existing ->
  uniqueNames existing ->
  get reqBody "skills" = Some (VArr items) ->
  mapM Skills.lowerName items = Some ns -> NoDup ns ->
  status (fst (Skills.postSkills odmNumber odmString uid reqBody store)) = 200 ->
  exists all,
    snd (Skills.postSkills odmNumber odmString uid reqBody store) !! uid ≫= skills
      = Some all /\
    uniqueNames all.
Proof.
  intros Huser Hsk Huniq Hget Hns Hnodup Hok.
  destruct (postSkills_success odmNumber odmString uid reqBody store Hok)
    as (user' & existing' & items' & kept & docs & Huser' & Hsk' & Hget' & Hkept
        & Hdocs & ->).
  rewrite Huser in Huser'. injection Huser' as <-.
  rewrite Hsk in Hsk'. injection Hsk' as <-.
  rewrite Hget in Hget'. injection Hget' as <-.
  exists (existing ++ docs)%list. split; [simpl; by rewrite lookup_insert_eq|].
  destruct (filterNew_names _ _ _ Hkept) as (ns' & Hitems & Hkept').
  apply mapM_Some in Hns.
  assert (ns' = ns) as ->.
  { clear -Hitems Hns. revert ns' Hitems.
    induction Hns as [|skill n items ns Hn _ IH]; intros ns' Hitems;
      inversion Hitems; subst; [done|].
    f_equal; [congruence|by apply IH]. }
  apply mapM_Some, Forall2_fmap_l in Hdocs.
  unfold uniqueNames. rewrite fmap_app.
  rewrite (stored_names odmNumber odmString kept docs _ Hdocs Hkept').
  apply NoDup_app. split; [done|]. split; [|by apply NoDup_filter].
  intros n Hn Hin. apply list_elem_of_filter in Hin as [Hnot _].
  apply Hnot. unfold namesOnFile. by apply elem_of_list_to_set.
Qed.

(** Deleting by name and clearing keep the names unique. *)
Lemma delete_and_clear_keep_names_unique (uid : string) (skillName : string)
  (store : gmap string User) (user : User) (existing : list Skill) :
  store !! uid = Some user -> skills user = Some existing ->
  uniqueNames existing ->
  (exists kept,
     snd (Skills.deleteSkillByName uid skillName store) !! uid ≫= skills = Some kept /\
     uniqueNames kept) /\
  snd (Skills.clearAll uid store) !! uid ≫= skills = Some [].
Proof.
  intros Huser Hsk Huniq. split.
  - unfold Skills.deleteSkillByName. rewrite Huser. cbn [mbind option_bind].
    rewrite Hsk. cbn [fmap option_fmap option_map].
    destruct (_ =? _)%nat; cbn [snd].
    + exists existing. by rewrite Huser.
    + eexists. split; [by rewrite lookup_insert_eq|].
      unfold uniqueNames. eapply sublist_NoDup; [exact Huniq|].
      apply fmap_sublist. clear. induction existing as [|s l IH]; simpl; [done|].
      destruct (negb _); by constructor.
  - unfold Skills.clearAll. rewrite Huser. simpl. by rewrite lookup_insert_eq.
Qed.


(** * Further properties of the routes *)

(** ** Deleting a skill by name *)

Lemma filter_keeps_all {A : Type} (f : A -> bool) (l : list A) :
  length (List.filter f l) = length l <-> forallb f l = true.
Proof.
  induction l as [|x l IH]; simpl; [done|].
  assert (Hle := List.filter_length_le f l).
  destruct (f x); simpl.
  - rewrite <- IH. split; lia.
  - split; [lia|done].
Qed.

Lemma deleteSkillByName_cases (uid skillName : string) (store : gmap string User)
  (user : User) (existing : list Skill) :
  store !! uid = Some user -> skills user = Some existing ->
  Skills.deleteSkillByName uid skillName store =
    if forallb (fun s => negb (namedLike skillName s)) existing
    then (statusJson 404 (VObj [("success", VBool false);
                                ("message", VStr "Skill not found")]), store)
    else
      let kept := List.filter (fun s => negb (namedLike skillName s)) existing in
      (json (VObj [("success", VBool true);
                   ("message", VStr "Skill deleted successfully");
                   ("data", VObj [("skills", Skills.skillsToJs kept)])]),
       <[uid := Skills.setSkills user kept]> store).
Proof.
  intros Huser Hsk. unfold Skills.deleteSkillByName. rewrite Huser.
  cbn [mbind option_bind]. rewrite Hsk. cbn [fmap option_fmap option_map].
  fold (namedLike skillName).
  change (fun skill : Skill =>
            negb (String.eqb (toLowerCase (name skill)) (toLowerCase skillName)))
    with (fun s => negb (namedLike skillName s)).
  destruct (forallb _ existing) eqn:Hall.
  - apply filter_keeps_all in Hall. rewrite Hall. by rewrite Nat.eqb_refl.
  - destruct (_ =? _)%nat eqn:Hlen; [|done].
    apply Nat.eqb_eq, filter_keeps_all in Hlen. congruence.
Qed.

(** For names written in ASCII: deleting a name that no skill has,
    case ignored, is answered 404 and changes nothing in the store. *)
Theorem delete_unknown_skill_changes_nothing (uid skillName : string)
  (store : gmap string User) (user : User) (existing : list Skill) :
  store !! uid = Some user -> skills user = Some existing ->
  isAscii skillName = true -> asciiNames existing ->
  Forall (fun s => toLowerCase (name s) <> toLowerCase skillName) existing ->
  Skills.deleteSkillByName uid skillName store =
    (statusJson 404 (VObj [("success", VBool false);
                           ("message", VStr "Skill not found")]), store).
Proof.
  intros Huser Hsk _ _ Hnone.
  rewrite (deleteSkillByName_cases uid skillName store user existing Huser Hsk).
  replace (forallb _ existing) with true; [done|].
  symmetry. apply forallb_forall. intros s Hin.
  rewrite Forall_forall in Hnone. unfold namedLike.
  apply negb_true_iff, String.eqb_neq, Hnone. by apply list_elem_of_In.
Qed.

Lemma delete_unknown_skill_witness :
  Skills.deleteSkillByName "u1" "rust" (storeOf [python]) =
    (statusJson 404 (VObj [("success", VBool false);
                           ("message", VStr "Skill not found")]), storeOf [python]).
Proof.
  apply (delete_unknown_skill_changes_nothing "u1" "rust" (storeOf [python])
           {| _id := "u1"; accessToken := None; skills := Some [python];
              resume := Some cv |} [python]).
  - reflexivity.
  - reflexivity.
  - reflexivity.
  - repeat constructor.
  - repeat constructor. vm_compute. discriminate.
Defined.

(** For names written in ASCII: deleting a name that some skill has,
    case ignored, is answered 200 with the list that is left; the stored
    list loses every skill of that name and nothing else: the other
    skills stay, as often as they occur and in their order, and so does
    the resume; the documents of other users are not touched. *)
Theorem delete_known_skill_removes_that_name_only (uid skillName : string)
  (store : gmap string User) (user : User) (existing : list Skill) :
  store !! uid = Some user -> skills user = Some existing ->
  isAscii skillName = true -> asciiNames existing ->
  Exists (fun s => toLowerCase (name s) = toLowerCase skillName) existing ->
  exists kept,
    kept = without skillName existing /\
    Skills.deleteSkillByName uid skillName store =
      (json (VObj [("success", VBool true);
                   ("message", VStr "Skill deleted successfully");
                   ("data", VObj [("skills", Skills.skillsToJs kept)])]),
       <[uid := Skills.setSkills user kept]> store) /\
    status (fst (Skills.deleteSkillByName uid skillName store)) = 200 /\
    resume (Skills.setSkills user kept) = resume user /\
    kept `sublist_of` existing /\
    (length kept < length existing)%nat /\
    (forall s, s ∈ kept <->
               s ∈ existing /\ toLowerCase (name s) <> toLowerCase skillName).
Proof.
  intros Huser Hsk _ _ Hsome.
  rewrite (deleteSkillByName_cases uid skillName store user existing Huser Hsk).
  set (keep := fun s => negb (namedLike skillName s)).
  assert (Hall : forallb keep existing = false).
  { apply not_true_iff_false. intros Hall.
    rewrite forallb_forall in Hall. apply Exists_exists in Hsome as (s & Hin & Hs).
    specialize (Hall s (proj1 (list_elem_of_In _ _) Hin)).
    unfold keep, namedLike in Hall. apply negb_true_iff, String.eqb_neq in Hall. done. }
  rewrite Hall. exists (List.filter keep existing). cbn [fst snd].
  split; [done|]. split; [done|]. split; [done|]. split; [done|].
  assert (Hsub : List.filter keep existing `sublist_of` existing).
  { clear. induction existing as [|s l IH]; simpl; [done|].
    destruct (keep s); by constructor. }
  split; [done|]. split.
  - assert (Hle := List.filter_length_le keep existing).
    destruct (decide (length (List.filter keep existing) = length existing)) as [Heq|];
      [|lia].
    apply filter_keeps_all in Heq. congruence.
  - intros s. rewrite !list_elem_of_In, List.filter_In. unfold keep, namedLike.
    rewrite negb_true_iff, String.eqb_neq. done.
Qed.

Lemma delete_known_skill_witness :
  status (fst (Skills.deleteSkillByName "u1" "PYTHON" (storeOf [python]))) = 200 /\
  snd (Skills.deleteSkillByName "u1" "PYTHON" (storeOf [python])) =
    <["u1" := Skills.setSkills
                {| _id := "u1"; accessToken := None; skills := Some [python];
                   resume := Some cv |} []]> (storeOf [python]).
Proof.
  destruct (delete_known_skill_removes_that_name_only "u1" "PYTHON" (storeOf [python])
              {| _id := "u1"; accessToken := None; skills := Some [python];
                 resume := Some cv |} [python] eq_refl eq_refl eq_refl)
    as (kept & Hkept & Hanswer & Hstatus & _).
  - repeat constructor.
  - constructor. reflexivity.
  - split; [exact Hstatus|]. rewrite Hanswer, Hkept. reflexivity.
Defined.

(** ** Adding skills *)

Lemma setSkills_same (user : User) (sk : list Skill) :
  skills user = Some sk -> Skills.setSkills user sk = user.
Proof. destruct user as [i a s r]. simpl. by intros ->. Qed.

Lemma filterNew_on_file (S : gset string) (items : list JsVal) :
  Forall (fun item => exists n, Skills.lowerName item = Some n /\ n ∈ S) items ->
  Skills.filterNew S items = Some [].
Proof.
  induction 1 as [|item items (n & Hn & Hin) _ IH]; simpl; [done|].
  rewrite Hn, IH. by rewrite bool_decide_eq_true_2.
Qed.

Lemma postSkills_nothing_new (odmNumber : JsVal -> option Z)
  (odmString : JsVal -> option string) (uid : string) (item : JsVal)
  (items : list JsVal) (store : gmap string User) (user : User)
  (existing : list Skill) :
  store !! uid = Some user -> skills user = Some existing ->
  Skills.filterNew (namesOnFile existing) (item :: items) = Some [] ->
  Skills.postSkills odmNumber odmString uid (addRequest (item :: items)) store =
    (json (VObj [("success", VBool true);
                 ("message", VStr "Added 0 new skill(s)");
                 ("data", VObj [("skills", Skills.skillsToJs existing);
                                ("added", VArr [])])]),
     store).
Proof.
  intros Huser Hsk Hkept. unfold Skills.postSkills, addRequest.
  cbn [get lookupField String.eqb Ascii.eqb Bool.eqb andb].
  rewrite Huser. cbn [mbind option_bind]. rewrite Hsk.
  cbn [fmap option_fmap option_map]. fold (namesOnFile existing). rewrite Hkept.
  cbn [fmap list_fmap mapM mret option_ret]. rewrite app_nil_r.
  rewrite (setSkills_same user existing Hsk), (insert_id store uid user Huser).
  reflexivity.
Qed.

(** Adding names that are all on file already, in whatever case, is
    answered 200 with an empty [added] list and "Added 0 new skill(s)";
    the store is left as it was. *)
Theorem add_of_names_on_file_adds_nothing (odmNumber : JsVal -> option Z)
  (odmString : JsVal -> option string) (uid : string) (item : JsVal)
  (items : list JsVal) (store : gmap string User) (user : User)
  (existing : list Skill) :
  store !! uid = Some user -> skills user = Some existing ->
  Forall (fun it => exists n s, get it "name" = Some (VStr n) /\
                                s ∈ existing /\
                                toLowerCase (name s) = toLowerCase n)
    (item :: items) ->
  Skills.postSkills odmNumber odmString uid (addRequest (item :: items)) store =
    (json (VObj [("success", VBool true);
                 ("message", VStr "Added 0 new skill(s)");
                 ("data", VObj [("skills", Skills.skillsToJs existing);
                                ("added", VArr [])])]),
     store).
Proof.
  intros Huser Hsk Hall. apply (postSkills_nothing_new _ _ _ _ _ _ user existing); [done|done|].
  apply filterNew_on_file. eapply Forall_impl; [exact Hall|].
  intros it (n & s & Hname & Hin & Hlow). exists (toLowerCase n).
  split; [unfold Skills.lowerName; by rewrite Hname|].
  unfold namesOnFile. apply elem_of_list_to_set, list_elem_of_fmap.
  by exists s.
Qed.

Lemma add_of_names_on_file_witness :
  Skills.postSkills noCoercion noCoercion "u1"
    (addRequest [VObj [("name", VStr "PYTHON"); ("confidence", VNum 10)]])
    (storeOf [python]) =
    (json (VObj [("success", VBool true);
                 ("message", VStr "Added 0 new skill(s)");
                 ("data", VObj [("skills", Skills.skillsToJs [python]);
                                ("added", VArr [])])]),
     storeOf [python]).
Proof.
  apply (add_of_names_on_file_adds_nothing noCoercion noCoercion "u1" _ [] (storeOf [python])
           {| _id := "u1"; accessToken := None; skills := Some [python];
              resume := Some cv |} [python]).
  - reflexivity.
  - reflexivity.
  - repeat constructor. exists "PYTHON", python.
    split; [reflexivity|]. split; [set_solver|reflexivity].
Defined.

(** Sending a batch a second time, after it was added with success,
    adds nothing and leaves the store as the first add left it. *)
Theorem add_twice_adds_once (odmNumber : JsVal -> option Z)
  (odmString : JsVal -> option string) (uid : string) (items : list JsVal)
  (store : gmap string User) :
  let first := Skills.postSkills odmNumber odmString uid (addRequest items) store in
  status (fst first) = 200 ->
  let second := Skills.postSkills odmNumber odmString uid (addRequest items) (snd first) in
  status (fst second) = 200 /\
  getOpt (getOpt (body (fst second)) "data") "added" = VArr [] /\
  getOpt (getOpt (body (fst second)) "data") "skills"
    = getOpt (getOpt (body (fst first)) "data") "skills" /\
  snd second = snd first.
Proof.
  intros first Hok.
  destruct (postSkills_success odmNumber odmString uid (addRequest items) store Hok)
    as (user & existing & items' & kept & docs & Huser & Hsk & Hget & Hkept & Hdocs & Hres).
  injection Hget as <-.
  assert (Hitems : exists item rest, items = item :: rest).
  { destruct items as [|item rest]; [|by eauto].
    unfold first, Skills.postSkills, addRequest in Hok. simpl in Hok. done. }
  destruct Hitems as (item & rest & ->).
  unfold first. rewrite Hres. cbn [fst snd].
  set (all := (existing ++ docs)%list).
  destruct (filterNew_names _ _ _ Hkept) as (ns & Hns & Hkept').
  apply mapM_Some, Forall2_fmap_l in Hdocs.
  assert (Hnames := stored_names odmNumber odmString kept docs _ Hdocs Hkept').
  assert (Hnothing : Skills.filterNew (namesOnFile all) (item :: rest) = Some []).
  { apply filterNew_on_file. eapply Forall2_Forall_l; [exact Hns|].
    apply Forall_forall. intros n Hn it Hit. exists n. split; [done|].
    unfold namesOnFile, all. rewrite fmap_app, Hnames.
    apply elem_of_list_to_set, elem_of_app.
    destruct (decide (n ∈ namesOnFile existing)) as [Hin|Hout].
    - left. by apply elem_of_list_to_set in Hin.
    - right. by apply list_elem_of_filter. }
  rewrite (postSkills_nothing_new odmNumber odmString uid item rest _
             (Skills.setSkills user all) all);
    [done|by rewrite lookup_insert_eq|done|done].
Qed.

Lemma add_twice_witness :
  let request := addRequest [VObj [("name", VStr "Go")]; VObj [("name", VStr "go")]] in
  let first := Skills.postSkills noCoercion noCoercion "u1" request (storeOf [python]) in
  let second := Skills.postSkills noCoercion noCoercion "u1" request (snd first) in
  status (fst first) = 200 /\
  getOpt (getOpt (body (fst second)) "data") "added" = VArr [] /\
  snd second = snd first.
Proof.
  intros request first second. split; [reflexivity|].
  destruct (add_twice_adds_once noCoercion noCoercion "u1"
              [VObj [("name", VStr "Go")]; VObj [("name", VStr "go")]]
              (storeOf [python]) eq_refl) as (_ & Hadded & _ & Hstore).
  split; [exact Hadded | exact Hstore].
Defined.


(** The add route answers 400 exactly when the request has a body whose
    [skills] is missing, is not an array or is the empty array; the
    store is then left as it was. *)
Theorem add_answers_400_without_a_non_empty_array (odmNumber : JsVal -> option Z)
  (odmString : JsVal -> option string) (uid : string) (reqBody : JsVal)
  (store : gmap string User) :
  let result := Skills.postSkills odmNumber odmString uid reqBody store in
  (status (fst result) = 400 <->
   exists v, get reqBody "skills" = Some v /\
             forall item items, v <> VArr (item :: items)) /\
  (status (fst result) = 400 -> snd result = store).
Proof.
  intros result. unfold result, Skills.postSkills.
  destruct (get reqBody "skills") as [v|]; [|split; [split|]; [done|intros (v & ? & _); done|done]].
  assert (Hbad : forall w : JsVal, (forall item items, w <> VArr (item :: items)) ->
                 (exists v', Some w = Some v' /\ forall item items, v' <> VArr (item :: items))).
  { intros w Hw. by exists w. }
  destruct v as [| | | | |[|item items]|fields];
    try (split; [split; [intros _; by apply Hbad|done]|done]).
  split; [|by destruct (_ ≫= _) as [[user existing]|];
             [destruct (Skills.filterNew _ _); [destruct (mapM _ _)|]|]].
  split.
  - destruct (_ ≫= _) as [[user existing]|]; [|done].
    destruct (Skills.filterNew _ _); [|done]. by destruct (mapM _ _).
  - intros (v' & [= <-] & Hv'). by destruct (Hv' item items).
Qed.

(** A batch in which some entry has no string name is refused whole:
    the answer is 500 and nothing is stored, whatever the other entries
    are. *)
Theorem add_with_a_nameless_entry_stores_nothing (odmNumber : JsVal -> option Z)
  (odmString : JsVal -> option string) (uid : string) (item : JsVal)
  (items : list JsVal) (store : gmap string User) (user : User)
  (existing : list Skill) :
  store !! uid = Some user -> skills user = Some existing ->
  Exists (fun it => forall n, get it "name" <> Some (VStr n)) (item :: items) ->
  Skills.postSkills odmNumber odmString uid (addRequest (item :: items)) store =
    (statusJson 500 (VObj [("success", VBool false);
                           ("message", VStr "Failed to add skills")]), store).
Proof.
  intros Huser Hsk Hbad. unfold Skills.postSkills, addRequest.
  cbn [get lookupField String.eqb Ascii.eqb Bool.eqb andb].
  rewrite Huser. cbn [mbind option_bind]. rewrite Hsk.
  cbn [fmap option_fmap option_map].
  replace (Skills.filterNew _ (item :: items)) with (@None (list JsVal)); [done|].
  symmetry. induction Hbad as [it its Hit|it its _ IH]; simpl.
  - unfold Skills.lowerName.
    destruct (get it "name") as [[| | | |n| |]|]; try done. by destruct (Hit n).
  - rewrite IH. by destruct (Skills.lowerName it).
Qed.

Lemma add_with_a_nameless_entry_witness :
  Skills.postSkills noCoercion noCoercion "u1"
    (addRequest [VObj [("name", VStr "Go")]; VObj [("name", VNum 5)]])
    (storeOf [python]) =
    (statusJson 500 (VObj [("success", VBool false);
                           ("message", VStr "Failed to add skills")]), storeOf [python]).
Proof.
  apply (add_with_a_nameless_entry_stores_nothing noCoercion noCoercion "u1" _ _
           (storeOf [python])
           {| _id := "u1"; accessToken := None; skills := Some [python];
              resume := Some cv |} [python]).
  - reflexivity.
  - reflexivity.
  - right. left. intros n. simpl. discriminate.
Defined.

Lemma castSkill_name (odmNumber : JsVal -> option Z)
  (odmString : JsVal -> option string) (skill : JsVal) (doc : Skill) (n : string) :
  Skills.castSkill odmNumber odmString (Skills.newSkill skill) = Some doc ->
  get skill "name" = Some (VStr n) ->
  name doc = n.
Proof.
  unfold Skills.castSkill, getOpt at 1.
  cbn [get Skills.newSkill lookupField String.eqb Ascii.eqb Bool.eqb andb].
  unfold getOpt at 1. intros Hcast Hn. rewrite Hn in Hcast.
  cbn [Skills.castString] in Hcast.
  destruct (Skills.castNumber _ _); [|done].
  destruct (Skills.castString _ _); [|done]. by injection Hcast as <-.
Qed.

(** A successful add keeps every skill on file, in place, and the
    resume; it appends one document for each submitted entry whose name
    was not on file, and no stored name of the new documents was on
    file before. *)
Theorem add_appends_names_not_on_file (odmNumber : JsVal -> option Z)
  (odmString : JsVal -> option string) (uid : string) (reqBody : JsVal)
  (store : gmap string User) :
  let result := Skills.postSkills odmNumber odmString uid reqBody store in
  status (fst result) = 200 ->
  exists user existing items docs,
    store !! uid = Some user /\ skills user = Some existing /\
    get reqBody "skills" = Some (VArr items) /\
    snd result = <[uid := Skills.setSkills user (existing ++ docs)]> store /\
    resume (Skills.setSkills user (existing ++ docs)) = resume user /\
    (length docs <= length items)%nat /\
    Forall (fun doc => (toLowerCase (name doc) ∉ namesOnFile existing) /\
                       exists it n, it ∈ items /\ get it "name" = Some (VStr n) /\
                                    name doc = n) docs.
Proof.
  intros result Hok.
  destruct (postSkills_success odmNumber odmString uid reqBody store Hok)
    as (user & existing & items & kept & docs & Huser & Hsk & Hget & Hkept & Hdocs & Hres).
  exists user, existing, items, docs. unfold result. rewrite Hres. cbn [snd].
  do 5 (split; [done|]).
  apply mapM_Some, Forall2_fmap_l in Hdocs.
  assert (Hsub : forall S its ks, Skills.filterNew S its = Some ks ->
                 ks `sublist_of` its /\
                 Forall (fun k => exists n, get k "name" = Some (VStr n) /\
                                            toLowerCase n ∉ S) ks).
  { clear. intros S its. induction its as [|it its IH]; intros ks; simpl.
    - intros [= <-]. split; constructor.
    - unfold Skills.lowerName at 1.
      destruct (get it "name") as [[| | | |n| |]|] eqn:Hn; try done.
      destruct (Skills.filterNew S its) as [ks'|]; [|done].
      destruct (IH ks' eq_refl) as [Hsub Hall]. intros [= <-].
      case_bool_decide as Hin.
      + split; [by constructor|done].
      + split; [by constructor|]. constructor; [by exists n|done]. }
  destruct (Hsub _ _ _ Hkept) as [Hsublist Hkeptnames].
  split.
  - rewrite <- (Forall2_length _ _ _ Hdocs). by apply sublist_length.
  - clear Hres Hok result Hsub Hkept.
    induction Hdocs as [|k doc kept docs Hcast _ IH]; [constructor|].
    apply Forall_cons in Hkeptnames as [(n & Hn & Hfresh) Hrest].
    assert (Hk : k ∈ items).
    { eapply elem_of_sublist; [|exact Hsublist]. set_solver. }
    assert (Hname := castSkill_name odmNumber odmString k doc n Hcast Hn).
    constructor.
    + split; [rewrite Hname; exact Hfresh|]. by exists k, n.
    + apply IH; [|done]. etrans; [|exact Hsublist]. by constructor.
Qed.

Lemma add_appends_witness :
  exists docs,
    snd (Skills.postSkills noCoercion noCoercion "u1"
           (addRequest [VObj [("name", VStr "Go")]; VObj [("name", VStr "python")]])
           (storeOf [python])) !! "u1" ≫= skills = Some (python :: docs) /\
    (length docs <= 2)%nat.
Proof.
  destruct (add_appends_names_not_on_file noCoercion noCoercion "u1"
              (addRequest [VObj [("name", VStr "Go")]; VObj [("name", VStr "python")]])
              (storeOf [python]) eq_refl)
    as (user & existing & items & docs & Huser & Hsk & Hget & Hstore & _ & Hlen & _).
  injection Huser as <-. injection Hsk as <-. injection Hget as <-.
  exists docs. split; [|exact Hlen].
  rewrite Hstore. rewrite lookup_insert_eq. reflexivity.
Defined.

(** For names written in ASCII: adding one skill whose name is not on
    file and then deleting that name, in whatever case, gives back the
    store as it was. *)
Theorem add_then_delete_restores_the_store (odmNumber : JsVal -> option Z)
  (odmString : JsVal -> option string) (uid n n' : string)
  (store : gmap string User) (user : User) (existing : list Skill) :
  store !! uid = Some user -> skills user = Some existing ->
  isAscii n = true -> isAscii n' = true -> asciiNames existing ->
  toLowerCase n ∉ namesOnFile existing ->
  toLowerCase n' = toLowerCase n ->
  let added := Skills.postSkills odmNumber odmString uid
                 (addRequest [VObj [("name", VStr n)]]) store in
  let deleted := Skills.deleteSkillByName uid n' (snd added) in
  status (fst added) = 200 /\
  snd added !! uid ≫= skills =
    Some (existing ++ [{| name := n; confidence := 80; category := "Manual" |}])%list /\
  status (fst deleted) = 200 /\
  snd deleted = store.
Proof.
  intros Huser Hsk _ _ _ Hfresh Hsame.
  assert (Hadd : Skills.postSkills odmNumber odmString uid
                   (addRequest [VObj [("name", VStr n)]]) store =
                 (json (VObj [
                    ("success", VBool true);
                    ("message", VStr "Added 1 new skill(s)");
                    ("data", VObj [
                       ("skills", Skills.skillsToJs
                          (existing ++ [{| name := n; confidence := 80;
                                           category := "Manual" |}]));
                       ("added", VArr [Skills.newSkill (VObj [("name", VStr n)])])])]),
                  <[uid := Skills.setSkills user
                            (existing ++ [{| name := n; confidence := 80;
                                             category := "Manual" |}])]> store)).
  { unfold Skills.postSkills, addRequest.
    cbn [get lookupField String.eqb Ascii.eqb Bool.eqb andb].
    rewrite Huser. cbn [mbind option_bind]. rewrite Hsk.
    cbn [fmap option_fmap option_map]. fold (namesOnFile existing).
    cbn [Skills.filterNew Skills.lowerName get lookupField String.eqb Ascii.eqb
         Bool.eqb andb].
    rewrite bool_decide_eq_false_2 by done. reflexivity. }
  intros added deleted. unfold deleted, added. rewrite Hadd. cbn [fst snd].
  split; [done|]. split; [by rewrite lookup_insert_eq|].
  set (new := {| name := n; confidence := 80; category := "Manual" |}).
  rewrite (deleteSkillByName_cases uid n' _ (Skills.setSkills user (existing ++ [new]))
             (existing ++ [new])) by (by rewrite ?lookup_insert_eq).
  assert (Hold : forallb (fun s => negb (namedLike n' s)) existing = true).
  { apply forallb_forall. intros s Hin. unfold namedLike.
    apply negb_true_iff, String.eqb_neq. rewrite Hsame. intros Heq. apply Hfresh.
    unfold namesOnFile. apply elem_of_list_to_set, list_elem_of_fmap.
    exists s. split; [done|]. by apply list_elem_of_In. }
  assert (Hnew : namedLike n' new = true).
  { unfold namedLike, new. simpl. apply String.eqb_eq. by rewrite Hsame. }
  rewrite forallb_app, Hold. cbn [forallb andb]. rewrite Hnew. cbn [negb andb].
  rewrite List.filter_app. cbn [List.filter]. rewrite Hnew. cbn [negb].
  rewrite app_nil_r.
  replace (List.filter _ existing) with existing.
  - cbn [fst snd]. split; [done|].
    rewrite insert_insert_eq. unfold Skills.setSkills at 1. cbn.
    rewrite <- (insert_id store uid user Huser) at 2. f_equal.
    destruct user as [i a s r]. simpl in *. by rewrite Hsk.
  - clear -Hold. induction existing as [|s l IH]; simpl in *; [done|].
    apply andb_true_iff in Hold as [-> Hl]. by rewrite <- IH.
Qed.

Lemma add_then_delete_witness :
  let added := Skills.postSkills noCoercion noCoercion "u1"
                 (addRequest [VObj [("name", VStr "Rust")]]) (storeOf [python]) in
  status (fst added) = 200 /\
  snd (Skills.deleteSkillByName "u1" "RUST" (snd added)) = storeOf [python].
Proof.
  destruct (add_then_delete_restores_the_store noCoercion noCoercion "u1" "Rust" "RUST"
              (storeOf [python])
              {| _id := "u1"; accessToken := None; skills := Some [python];
                 resume := Some cv |} [python] eq_refl eq_refl eq_refl eq_refl)
    as (Hadd & _ & _ & Hback).
  - repeat constructor.
  - vm_compute. set_solver.
  - reflexivity.
  - split; [exact Hadd | exact Hback].
Defined.

(** Starting from names that are unique when case is ignored, each
    skill operation leads to such names again: deleting by name,
    clearing, and an add whose batch has no two names that differ only
    in case. *)
Theorem unique_names_are_kept_by_duplicate_free_operations
  (odmNumber : JsVal -> option Z) (odmString : JsVal -> option string)
  (uid : string) (store : gmap string User) (user : User) (existing : list Skill) :
  store !! uid = Some user -> skills user = Some existing ->
  uniqueNames existing ->
  (forall items ns,
     mapM Skills.lowerName items = Some ns -> NoDup ns ->
     status (fst (Skills.postSkills odmNumber odmString uid (addRequest items) store)) = 200 ->
     exists all,
       snd (Skills.postSkills odmNumber odmString uid (addRequest items) store) !! uid
         ≫= skills = Some all /\ uniqueNames all) /\
  (forall skillName,
     exists kept,
       snd (Skills.deleteSkillByName uid skillName store) !! uid ≫= skills = Some kept /\
       uniqueNames kept) /\
  snd (Skills.clearAll uid store) !! uid ≫= skills = Some [] /\
  uniqueNames [].
Proof.
  intros Huser Hsk Huniq. split; [|split; [|split]].
  - intros items ns Hns Hnodup Hok.
    by apply (add_skills_keeps_names_unique_for_a_distinct_batch odmNumber odmString
                uid (addRequest items) store user existing items ns).
  - intros skillName.
    by destruct (delete_and_clear_keep_names_unique uid skillName store user existing
                   Huser Hsk Huniq) as [Hdel _].
  - by destruct (delete_and_clear_keep_names_unique uid "" store user existing
                   Huser Hsk Huniq) as [_ Hclear].
  - constructor.
Qed.

Lemma unique_names_are_kept_witness :
  exists all,
    snd (Skills.postSkills noCoercion noCoercion "u1"
           (addRequest [VObj [("name", VStr "Go")]; VObj [("name", VStr "Rust")]])
           (storeOf [python])) !! "u1" ≫= skills = Some all /\
    uniqueNames all.
Proof.
  refine (proj1 (unique_names_are_kept_by_duplicate_free_operations noCoercion noCoercion
                   "u1" (storeOf [python])
                   {| _id := "u1"; accessToken := None; skills := Some [python];
                      resume := Some cv |} [python] eq_refl eq_refl _)
            [VObj [("name", VStr "Go")]; VObj [("name", VStr "Rust")]]
            ["go"; "rust"] eq_refl _ eq_refl).
  - unfold uniqueNames. simpl. apply NoDup_singleton.
  - apply NoDup_cons. split; [|apply NoDup_singleton].
    intros Hin. apply list_elem_of_singleton in Hin. discriminate.
Defined.

(** ** The router of the skill routes *)

(** No request, whatever its method and path, is given to the clear-all
    handler; a DELETE on a one-segment path is always deletion by name,
    with the segment as the name, and no DELETE changes the resume. *)
Theorem clear_all_handler_is_unreachable :
  (forall m path h params,
     Skills.dispatch Skills.routes m path = Some (h, params) -> h <> Skills.ClearSkills) /\
  (forall seg,
     Skills.dispatch Skills.routes Skills.DELETE [seg]
       = Some (Skills.DeleteSkill, [("skillName", seg)])) /\
  (forall uid path store user,
     store !! uid = Some user ->
     exists user',
       snd (Skills.serveDelete uid path store) !! uid = Some user' /\
       resume user' = resume user).
Proof.
  assert (Hdelete : forall path,
            Skills.dispatch Skills.routes Skills.DELETE path =
            match path with
            | [seg] => Some (Skills.DeleteSkill, [("skillName", seg)])
            | _ => None
            end).
  { intros [|seg [|seg' rest]]; [reflexivity|reflexivity|].
    cbn [Skills.dispatch Skills.routes Skills.methodEqb Skills.matchPath].
    by destruct (String.eqb _ _). }
  split; [|split].
  - intros m path h params. destruct m.
    + destruct path as [|seg rest]; simpl; [by intros [= <- _]|done].
    + destruct path as [|seg [|seg' rest]];
        cbn [Skills.dispatch Skills.routes Skills.methodEqb Skills.matchPath];
        [by intros [= <- _]| |by destruct (String.eqb _ _)].
      destruct (String.eqb _ _); [by intros [= <- _]|done].
    + rewrite Hdelete. destruct path as [|seg [|seg' rest]]; [done| |done].
      by intros [= <- _].
  - intros seg. by rewrite Hdelete.
  - intros uid path store user Huser. unfold Skills.serveDelete. rewrite Hdelete.
    destruct path as [|seg [|seg' rest]]; cbn [snd]; [by exists user| |by exists user].
    unfold Skills.param. cbn [List.find fst snd String.eqb Ascii.eqb Bool.eqb andb].
    unfold Skills.deleteSkillByName. rewrite Huser. cbn [mbind option_bind].
    destruct (skills user) as [existing|]; cbn [fmap option_fmap option_map];
      [|by exists user].
    destruct (_ =? _)%nat; cbn [snd]; [by exists user|].
    eexists. split; [by rewrite lookup_insert_eq|done].
Qed.

Lemma clear_all_handler_witness :
  exists user',
    snd (Skills.serveDelete "u1" ["ALL"] (storeOf [python])) !! "u1" = Some user' /\
    resume user' = Some cv.
Proof.
  exact (proj2 (proj2 clear_all_handler_is_unreachable) "u1" ["ALL"] (storeOf [python])
           {| _id := "u1"; accessToken := None; skills := Some [python];
              resume := Some cv |} eq_refl).
Defined.

(** ** The guide route, beyond the template's content *)

(** A request with a body that names no repository (no [repoData], or
    one without a truthy [fullName]) is answered 400 and the handler
    makes no call. *)
Theorem guide_without_repository_is_rejected_before_any_call (env : Env)
  (reqUser : option User) (reqBody repoData : JsVal) :
  get reqBody "repoData" = Some repoData ->
  truthy repoData = false \/ truthy (getOpt repoData "fullName") = false ->
  Guide.generate env reqUser reqBody = Ret Guide.repoRequired /\
  status Guide.repoRequired = 400 /\
  forall w, exec (Guide.generate env reqUser reqBody) w = (Guide.repoRequired, []).
Proof.
  intros Hget Hbad.
  assert (Hgen : Guide.generate env reqUser reqBody = Ret Guide.repoRequired).
  { unfold Guide.generate. rewrite Hget. by destruct Hbad as [-> | ->]; [|rewrite orb_true_r]. }
  split; [done|]. split; [done|]. intros w. by rewrite Hgen.
Qed.

Lemma guide_without_repository_witness :
  exec (Guide.generate localEnv None
          (VObj [("repoData", VObj [("name", VStr "react")]); ("issueData", issue42)]))
    allDown
  = (Guide.repoRequired, []).
Proof.
  refine (proj2 (proj2 (guide_without_repository_is_rejected_before_any_call localEnv None
                          (VObj [("repoData", VObj [("name", VStr "react")]);
                                 ("issueData", issue42)])
                          (VObj [("name", VStr "react")]) eq_refl _)) allDown).
  right. reflexivity.
Defined.

(** On the template path, for a request whose names, title and number
    the template can print, the answer is the template guide, flagged
    [isTemplate], when the labels of the issue are absent, falsy, an
    array or a string; with any other labels (a number, [true], an
    object) building the template throws and the answer is 500. *)
Theorem template_path_needs_searchable_labels (w : World) (env : Env)
  (reqUser : option User) (reqBody : JsVal) :
  templatePath w env reqUser reqBody = true ->
  forallb interpolates (templateValues reqBody) = true ->
  let resp := fst (exec (Guide.generate env reqUser reqBody) w) in
  if labelsUsable (getOpt reqBody "issueData")
  then status resp = 200 /\ getOpt (body resp) "isTemplate" = VBool true
  else resp = Guide.failed /\ status resp = 500.
Proof.
  intros Hpath _ resp. unfold templatePath in Hpath.
  apply andb_true_iff in Hpath as [Hrepo Hai].
  unfold resp, exec. rewrite generate_run by done.
  destruct (guideAnswer w env reqUser reqBody); [done|].
  unfold labelsUsable, Guide.templateResponse, Guide.templateGuide. cbn [fst].
  destruct (Js.orElse (getOpt (getOpt reqBody "issueData") "labels") (VArr []));
    by cbn [Guide.labelsInclude].
Qed.

Lemma template_path_needs_searchable_labels_witness :
  fst (exec (Guide.generate localEnv None
               (guideRequest reactRepo (VObj [("number", VNum 42); ("labels", VNum 5)])))
         allDown)
  = Guide.failed /\
  status (fst (exec (Guide.generate localEnv None (guideRequest reactRepo issue42)) allDown))
  = 200.
Proof.
  split.
  - exact (proj1 (template_path_needs_searchable_labels allDown localEnv None
                    (guideRequest reactRepo (VObj [("number", VNum 42); ("labels", VNum 5)]))
                    eq_refl eq_refl)).
  - exact (proj1 (template_path_needs_searchable_labels allDown localEnv None
                    (guideRequest reactRepo issue42) eq_refl eq_refl)).
Defined.


(** ** The fallback search, beyond the ranking fields *)

Lemma encodeURIComponent_chars (s : string) :
  Forall (fun c => unreserved c = true \/ c = "%"%char)
    (list_ascii_of_string (encodeURIComponent s)).
Proof.
  induction s as [|c s IH]; simpl; [constructor|].
  destruct (unreserved c) eqn:Hc; simpl.
  - constructor; [by left|done].
  - constructor; [by right|].
    constructor; [left|constructor; [left|done]];
      clear; destruct c as [[] [] [] [] [] [] [] []]; reflexivity.
Qed.

(** Whatever the names of the skills, the query they make is one
    parameter of the search URL: after encoding it holds none of the
    characters that end or separate URL parameters, so the sort, order
    and page size of the search are the ones the route wrote. *)
Theorem fallback_query_is_one_url_parameter (top : list string) :
  exists q,
    Repository.fallbackEndpoint top =
      "/search/repositories?q=" +:+ q +:+ "&sort=stars&order=desc&per_page=10" /\
    q = encodeURIComponent (join " OR " top +:+ " good-first-issues:>0") /\
    Forall (fun c => urlDelimiter c = false) (list_ascii_of_string q).
Proof.
  eexists. split; [reflexivity|]. split; [reflexivity|].
  eapply Forall_impl; [apply encodeURIComponent_chars|].
  intros c [Hc | ->]; [|reflexivity].
  destruct c as [[] [] [] [] [] [] [] []]; try reflexivity; discriminate.
Qed.

Lemma mapRepo_madeFrom (top : list string) (repo : JsVal) (index : Z) (w : World)
  (ds : list Z) (r : JsVal) (tr : list Event) (ds' : list Z) :
  run (Repository.mapRepo top repo index) w ds = (Some r, tr, ds') ->
  madeFrom repo r.
Proof.
  unfold Repository.mapRepo.
  destruct (get repo "id") as [id|] eqn:Hid; [|done].
  destruct (get repo "owner") as [owner|] eqn:Ho; [|done].
  destruct (get owner "login") as [login|] eqn:Hl; [|done].
  destruct (get owner "avatar_url") as [avatar|] eqn:Ha; [|done].
  assert (Hid' : getOpt repo "id" = id) by (unfold getOpt; by rewrite Hid).
  assert (Ho' : getOpt repo "owner" = owner) by (unfold getOpt; by rewrite Ho).
  assert (Hl' : getOpt owner "login" = login) by (unfold getOpt; by rewrite Hl).
  assert (Ha' : getOpt owner "avatar_url" = avatar) by (unfold getOpt; by rewrite Ha).
  unfold madeFrom. rewrite Hid', Ho', Hl', Ha'.
  intros Hrun. cbn [bind run randomBelow] in Hrun. injection Hrun as <- _ _.
  repeat (split; [reflexivity|]).
  split.
  - eexists. split; [reflexivity|].
    assert (Hg := Z.mod_pos_bound (hd 0 ds) 20). lia.
  - assert (Hd := Z.mod_pos_bound (hd 0 (tl ds)) 3 eq_refl).
    eexists. split; [reflexivity|]. unfold Repository.difficulties.
    destruct (Z.to_nat (hd 0 (tl ds) mod 3)) as [|[|[|n]]] eqn:Hn; simpl;
      [repeat constructor|repeat constructor|repeat constructor|lia].
Qed.

Lemma mapRepos_madeFrom (top : list string) (items : list JsVal) (index : Z)
  (w : World) (ds : list Z) (rs : list JsVal) (tr : list Event) (ds' : list Z) :
  run (Repository.mapRepos top items index) w ds = (Some rs, tr, ds') ->
  Forall2 madeFrom items rs.
Proof.
  revert index ds rs tr ds'. induction items as [|repo items IH];
    intros index ds rs tr ds'.
  - simpl. intros [= <- _ _]. constructor.
  - cbn [Repository.mapRepos]. rewrite run_bind.
    destruct (run (Repository.mapRepo top repo index) w ds) as [[[r|] tr1] ds1] eqn:Hrepo;
      [|simpl; done].
    rewrite run_bind.
    destruct (run (Repository.mapRepos top items (index + 1)) w ds1)
      as [[[rs'|] tr2] ds2] eqn:Hrest; simpl; [|done].
    intros [= <- _ _]. constructor; [by eapply mapRepo_madeFrom|by eapply IH].
Qed.

(** When the AI call fails and the search succeeds, the answer lists
    the hits in the order GitHub gave them, one entry for each: an
    entry carries its hit's own id, names, owner, counts and topics
    (an empty list when the hit has none), a [goodFirstIssues] between
    5 and 24 and a [difficulty] among Easy, Medium and Hard, whatever
    the random generator gives. *)
Theorem fallback_entries_follow_the_hits (env : Env) (user : User) (s : Skill)
  (rest : list Skill) (w : World) (items : list JsVal) :
  skills user = Some (s :: rest) ->
  let top := Repository.topSkills (s :: rest) in
  aiAnswer w env user top = None ->
  searchAnswer w env user top = Some items ->
  forallb wellFormed items = true ->
  exists rs,
    fst (exec (Repository.recommendations env user) w) = Repository.success (VArr rs) /\
    Forall2 madeFrom items rs.
Proof.
  intros Hsk top Hai Hsearch Hwf.
  assert (Hrun := recommendations_run env user s rest w (draws w) Hsk).
  cbv zeta in Hrun. fold top in Hrun. rewrite Hai in Hrun.
  unfold exec. rewrite Hrun. clear Hrun.
  unfold Repository.fallback, Repository.githubRequest. cbn [bind run].
  unfold searchAnswer in Hsearch.
  destruct (onGet w _ _) as [|data]; [done|].
  destruct (get data "items") as [[| | | | |items'|]|]; try done.
  injection Hsearch as ->. rewrite run_bind.
  destruct (mapRepos_wellFormed top items 0 w (draws w) Hwf)
    as (rs & tr & ds' & Hmap & _).
  rewrite Hmap. simpl. exists rs. split; [done|].
  by eapply mapRepos_madeFrom.
Qed.

Lemma fallback_entries_witness :
  exists rs,
    fst (exec (Repository.recommendations localEnv pythonUser)
           (aiDown [hit 1 "psf" "requests" 50000; hit 2 "pallets" "flask" 60000]))
    = Repository.success (VArr rs) /\
    Forall2 madeFrom [hit 1 "psf" "requests" 50000; hit 2 "pallets" "flask" 60000] rs.
Proof.
  exact (fallback_entries_follow_the_hits localEnv pythonUser python []
           (aiDown [hit 1 "psf" "requests" 50000; hit 2 "pallets" "flask" 60000])
           [hit 1 "psf" "requests" 50000; hit 2 "pallets" "flask" 60000]
           eq_refl eq_refl eq_refl eq_refl).
Defined.

(** ** The client and the routes together *)

Lemma wire_fields_cons (k : string) (x : JsVal) (rest : list (string * JsVal)) :
  fieldsOf (Frontend.wire (VObj ((k, x) :: rest))) =
  match x with
  | VUndefined => fieldsOf (Frontend.wire (VObj rest))
  | _ => (k, Frontend.wire x) :: fieldsOf (Frontend.wire (VObj rest))
  end.
Proof. by destruct x. Qed.

Lemma wire_object (fs : list (string * JsVal)) :
  Frontend.wire (VObj fs) = VObj (fieldsOf (Frontend.wire (VObj fs))).
Proof. reflexivity. Qed.

Lemma lookupField_wire_absent (k : string) (fs : list (string * JsVal)) :
  k ∉ fs.*1 -> lookupField k (fieldsOf (Frontend.wire (VObj fs))) = VUndefined.
Proof.
  induction fs as [|[k' x] fs IH]; intros Hk; [done|].
  rewrite wire_fields_cons. cbn [fmap list_fmap fst] in Hk.
  apply not_elem_of_cons in Hk as [Hne Hk].
  destruct x; try (by apply IH);
    cbn [lookupField]; rewrite (proj2 (String.eqb_neq k k') Hne); by apply IH.
Qed.

Lemma lookupField_wire (k : string) (fs : list (string * JsVal)) :
  NoDup (fs.*1) ->
  lookupField k (fieldsOf (Frontend.wire (VObj fs))) = Frontend.wire (lookupField k fs).
Proof.
  induction fs as [|[k' x] fs IH]; intros Hnd; [done|].
  rewrite wire_fields_cons. cbn [fmap list_fmap fst] in Hnd.
  apply NoDup_cons in Hnd as [Hk' Hnd]. cbn [lookupField].
  destruct (String.eqb k k') eqn:Hk.
  - apply String.eqb_eq in Hk as ->.
    destruct x; try (cbn [lookupField]; by rewrite String.eqb_refl).
    by apply lookupField_wire_absent.
  - destruct x; try (by apply IH); cbn [lookupField]; rewrite Hk; by apply IH.
Qed.

Lemma getOpt_wire (k : string) (fs : list (string * JsVal)) :
  NoDup (fs.*1) ->
  getOpt (Frontend.wire (VObj fs)) k = Frontend.wire (getOpt (VObj fs) k).
Proof. intros Hnd. rewrite wire_object. unfold getOpt, get. by apply lookupField_wire. Qed.

(** A body made by [guideService.generate] has no [repoData]: the
    guide route answers it 400, whatever repository and skills were
    given, and makes no call. *)
Theorem guideService_requests_are_always_rejected (env : Env) (reqUser : option User)
  (repository userSkills : JsVal) :
  Guide.generate env reqUser
    (Frontend.wire (Frontend.guideService_generate repository userSkills))
  = Ret Guide.repoRequired /\
  forall w,
    exec (Guide.generate env reqUser
            (Frontend.wire (Frontend.guideService_generate repository userSkills))) w
    = (Guide.repoRequired, []).
Proof.
  assert (Hgen : Guide.generate env reqUser
                   (Frontend.wire (Frontend.guideService_generate repository userSkills))
                 = Ret Guide.repoRequired).
  { unfold Frontend.guideService_generate, Guide.generate. rewrite wire_object.
    cbn [get]. rewrite lookupField_wire_absent; [done|].
    cbn. intros Hin. repeat (apply elem_of_cons in Hin as [Hin|Hin]; [done|]).
    by apply elem_of_nil in Hin. }
  split; [done|]. intros w. by rewrite Hgen.
Qed.

(** A body made by [guideAPI.generate] names no issue: when it names a
    repository whose names the template can print and the AI call
    fails, the guide it gets is the template for an issue without a
    number, titled "this issue", of difficulty "medium" and 3-8 hours,
    without labels. *)
Theorem guideAPI_requests_get_the_guide_of_no_issue (env : Env) (reqUser : option User)
  (repoData userContext : JsVal) (w : World) :
  let reqBody := Frontend.wire (Frontend.guideAPI_generate repoData userContext) in
  templatePath w env reqUser reqBody = true ->
  forallb interpolates (templateValues reqBody) = true ->
  exists guide rest,
    fst (exec (Guide.generate env reqUser reqBody) w) =
      json (VObj [("success", VBool true); ("data", guide); ("isTemplate", VBool true)]) /\
    getOpt guide "summary" =
      VStr ("Issue #: " +:+ Guide.dq +:+ "this issue" +:+ Guide.dq +:+ " in " +:+ rest) /\
    getOpt (getOpt guide "issueAnalysis") "difficulty" = VStr "medium" /\
    getOpt (getOpt guide "issueAnalysis") "estimatedTime" = VStr "3-8 hours" /\
    getOpt (getOpt guide "issueAnalysis") "labels" = VArr [].
Proof.
  intros reqBody Hpath _. unfold templatePath in Hpath.
  apply andb_true_iff in Hpath as [Hrepo Hai].
  unfold exec. rewrite generate_run by done.
  destruct (guideAnswer w env reqUser reqBody); [done|].
  assert (Hissue : getOpt reqBody "issueData" = VUndefined).
  { unfold reqBody, Frontend.guideAPI_generate. rewrite wire_object.
    unfold getOpt, get. rewrite lookupField_wire_absent; [done|].
    cbn. intros Hin. repeat (apply elem_of_cons in Hin as [Hin|Hin]; [done|]).
    by apply elem_of_nil in Hin. }
  rewrite Hissue. eexists _, _. split; [reflexivity|]. split; [reflexivity|].
  split; [reflexivity|]. split; reflexivity.
Qed.

Lemma guideAPI_requests_witness :
  exists guide,
    fst (exec (Guide.generate localEnv None
                 (Frontend.wire (Frontend.guideAPI_generate reactRepo VUndefined))) allDown)
    = json (VObj [("success", VBool true); ("data", guide); ("isTemplate", VBool true)]) /\
    getOpt (getOpt guide "issueAnalysis") "difficulty" = VStr "medium".
Proof.
  destruct (guideAPI_requests_get_the_guide_of_no_issue localEnv None reactRepo VUndefined
              allDown eq_refl eq_refl) as (guide & rest & Hresp & _ & Hd & _).
  exists guide. split; [exact Hresp | exact Hd].
Defined.


Lemma classifyDifficulty_range (stringToNumber : string -> option Z) (issue : JsVal)
  (d : string) :
  Frontend.classifyDifficulty stringToNumber issue = Some d ->
  exists t, (d, t) ∈ pageDifficulties /\ Guide.estimatedTime (VStr d) = t.
Proof.
  unfold Frontend.classifyDifficulty.
  destruct (Frontend.lowerLabels issue) as [labels|]; [|done].
  intros [= <-]. unfold pageDifficulties.
  repeat match goal with
         | |- context [if ?b then _ else _] => destruct b
         end;
    eexists; (split; [|reflexivity]); repeat constructor.
Qed.

(** The labels decide an issue's difficulty before the comments do, and
    the "easy" labels before the others: an issue with a label "good
    first issue", "beginner" or "easy", in whatever case, is easy; with
    none of the eight known labels, it is easy up to 3 comments, medium
    up to 10 and hard beyond, or when the count is no number. *)
Theorem difficulty_is_decided_by_labels_then_comments
  (stringToNumber : string -> option Z) (issue : JsVal) (labels : list string) :
  Frontend.lowerLabels issue = Some labels ->
  (exists d, Frontend.classifyDifficulty stringToNumber issue = Some d /\
             d ∈ ["easy"; "medium"; "hard"]) /\
  ((exists l, l ∈ labels /\ l ∈ ["good first issue"; "beginner"; "easy"]) ->
   Frontend.classifyDifficulty stringToNumber issue = Some "easy") /\
  ((forall l, l ∈ labels ->
              l ∉ ["good first issue"; "beginner"; "easy"; "help wanted";
                   "intermediate"; "complex"; "advanced"; "hard"]) ->
   Frontend.classifyDifficulty stringToNumber issue =
     Some (match Coercion.toNumber stringToNumber (getOpt issue "comments") with
           | Some n => if n <=? 3 then "easy" else if n <=? 10 then "medium" else "hard"
           | None => "hard"
           end)).
Proof.
  intros Hlabels. unfold Frontend.classifyDifficulty. rewrite Hlabels.
  split; [|split].
  - eexists. split; [reflexivity|].
    repeat match goal with
           | |- context [if ?b then _ else _] => destruct b
           end; repeat constructor.
  - intros (l & Hl & Hknown).
    assert (Heasy : bool_decide ("good first issue" ∈ labels)
                    || bool_decide ("beginner" ∈ labels)
                    || bool_decide ("easy" ∈ labels) = true).
    { repeat (apply elem_of_cons in Hknown as [-> | Hknown]);
        [rewrite (bool_decide_eq_true_2 _ Hl); by rewrite ?orb_true_r ..|].
      by apply elem_of_nil in Hknown. }
    by rewrite Heasy.
  - intros Hnone.
    assert (Hno : forall n, n ∈ ["good first issue"; "beginner"; "easy"; "help wanted";
                                  "intermediate"; "complex"; "advanced"; "hard"] ->
                  bool_decide (n ∈ labels) = false).
    { intros n Hn. apply bool_decide_eq_false_2. intros Hin. by apply (Hnone n). }
    rewrite !Hno by (repeat constructor). cbn [orb].
    unfold Coercion.le.
    destruct (Coercion.toNumber stringToNumber (getOpt issue "comments")) as [n|]; [|done].
    destruct (n <=? 3) eqn:H3; [done|]. done.
Qed.

Lemma difficulty_witness :
  Frontend.classifyDifficulty (fun _ => None)
    (VObj [("labels", VArr [VObj [("name", VStr "Hard")];
                            VObj [("name", VStr "Good First Issue")]]);
           ("comments", VNum 40)])
  = Some "easy".
Proof.
  refine (proj1 (proj2 (difficulty_is_decided_by_labels_then_comments (fun _ => None)
                          (VObj [("labels", VArr [VObj [("name", VStr "Hard")];
                                                  VObj [("name", VStr "Good First Issue")]]);
                                 ("comments", VNum 40)])
                          ["hard"; "good first issue"] eq_refl)) _).
  exists "good first issue". split; repeat constructor.
Defined.

Lemma transformIssue_shape (stringToNumber : string -> option Z) (issue selected : JsVal) :
  Frontend.transformIssue stringToNumber issue = Some selected ->
  exists labels d,
    Frontend.classifyDifficulty stringToNumber issue = Some d /\
    truthy selected = true /\
    get selected "labels" = Some (VArr labels) /\
    getOpt selected "difficulty" = VStr d.
Proof.
  unfold Frontend.transformIssue.
  destruct (Frontend.plainLabels issue) as [labels|]; [|done].
  destruct (Frontend.classifyDifficulty stringToNumber issue) as [d|]; [|done].
  destruct (get (getOpt issue "user") "login") as [login|]; [|done].
  intros [= <-]. by exists labels, d.
Qed.

(** A guide request that the repository page builds for an issue it
    has listed is never answered 500: the labels it sends are an array,
    so the template can always be built. When the AI call fails, the
    guide's difficulty is the one the page gave the issue (easy, medium
    or hard) and the estimated time is 1-3 hours, 3-8 hours or 1-3 days
    accordingly. *)
Theorem page_guide_requests_never_break_the_template
  (stringToNumber : string -> option Z) (issue selected user repository sent : JsVal)
  (env : Env) (reqUser : option User) (w : World) :
  Frontend.transformIssue stringToNumber issue = Some selected ->
  Frontend.generateGuideForIssue user repository selected = Some (Some sent) ->
  let reqBody := Frontend.wire sent in
  let resp := fst (exec (Guide.generate env reqUser reqBody) w) in
  (status resp = 200 \/ status resp = 400) /\
  (templatePath w env reqUser reqBody = true ->
   exists d t guide,
     Frontend.classifyDifficulty stringToNumber issue = Some d /\
     (d, t) ∈ pageDifficulties /\
     body resp = VObj [("success", VBool true); ("data", guide);
                       ("isTemplate", VBool true)] /\
     getOpt (getOpt guide "issueAnalysis") "difficulty" = VStr d /\
     getOpt (getOpt guide "issueAnalysis") "estimatedTime" = VStr t).
Proof.
  intros Hselected Hsent.
  destruct (transformIssue_shape stringToNumber issue selected Hselected)
    as (labels & d & Hd & Htruthy & Hlabels & Hdiff).
  destruct (classifyDifficulty_range stringToNumber issue d Hd) as (t & Ht & Htime).
  unfold Frontend.generateGuideForIssue in Hsent. rewrite Htruthy in Hsent.
  destruct (truthy repository); [|done]. cbn [negb orb] in Hsent.
  unfold Frontend.labelNames in Hsent. rewrite Hlabels in Hsent.
  destruct (mapM _ labels) as [names|]; [|done].
  rewrite Hdiff in Hsent. injection Hsent as <-.
  set (repoFields := [("name", getOpt repository "name");
                      ("fullName", getOpt repository "fullName");
                      ("description", getOpt repository "description");
                      ("language", getOpt repository "language");
                      ("stars", getOpt repository "stars");
                      ("topics", getOpt repository "topics")]).
  set (issueFields := [("number", getOpt selected "number");
                       ("title", getOpt selected "title");
                       ("labels", VArr names);
                       ("difficulty", VStr d);
                       ("comments", getOpt selected "comments")]).
  set (contextFields := [("skills", Js.orElse (getOpt user "skills") (VArr []))]).
  intros reqBody resp.
  assert (Hbody : reqBody = VObj [("repoData", Frontend.wire (VObj repoFields));
                                  ("issueData", Frontend.wire (VObj issueFields));
                                  ("userContext", Frontend.wire (VObj contextFields))])
    by reflexivity.
  assert (Hnodup : NoDup (issueFields.*1)).
  { unfold issueFields. cbn [fmap list_fmap fst].
    repeat (apply NoDup_cons; split;
            [intros Hin; repeat (apply elem_of_cons in Hin as [Hin|Hin]; [done|]);
             by apply elem_of_nil in Hin|]).
    apply NoDup_nil. done. }
  assert (Hlab : getOpt (Frontend.wire (VObj issueFields)) "labels"
                 = Frontend.wire (VArr names)) by (by rewrite getOpt_wire).
  assert (Hdif : getOpt (Frontend.wire (VObj issueFields)) "difficulty" = VStr d)
    by (by rewrite getOpt_wire).
  assert (Hnonempty : truthy (VStr d) = true).
  { unfold pageDifficulties in Ht.
    repeat (apply elem_of_cons in Ht as [[= -> _]|Ht]; [done|]).
    by apply elem_of_nil in Ht. }
  assert (Htemplate : exists guide,
            Guide.templateGuide (Frontend.wire (VObj repoFields))
              (Frontend.wire (VObj issueFields)) = Some guide /\
            getOpt (getOpt guide "issueAnalysis") "difficulty" = VStr d /\
            getOpt (getOpt guide "issueAnalysis") "estimatedTime" = VStr t).
  { assert (Hor : Js.orElse (VStr d) (VStr "medium") = VStr d)
      by (unfold Js.orElse; by rewrite Hnonempty).
    unfold Guide.templateGuide. rewrite Hlab, Hdif, Hor.
    change (Js.orElse (Frontend.wire (VArr names)) (VArr []))
      with (Frontend.wire (VArr names)).
    cbn [Frontend.wire Guide.labelsInclude].
    eexists. split; [reflexivity|]. split; [reflexivity|].
    cbn [getOpt get lookupField String.eqb Ascii.eqb Bool.eqb andb]. by rewrite Htime. }
  destruct Htemplate as (guide & Hguide & Hgd & Hgt).
  unfold resp, exec.
  destruct (namesRepository reqBody) eqn:Hrepo.
  - rewrite generate_run by done.
    assert (Hr : getOpt reqBody "repoData" = Frontend.wire (VObj repoFields))
      by (by rewrite Hbody).
    assert (Hi : getOpt reqBody "issueData" = Frontend.wire (VObj issueFields))
      by (by rewrite Hbody).
    rewrite Hr, Hi. unfold Guide.templateResponse. rewrite Hguide. cbn [fst].
    split.
    + left. by destruct (guideAnswer w env reqUser reqBody).
    + unfold templatePath. rewrite Hrepo. cbn [andb].
      destruct (guideAnswer w env reqUser reqBody); [done|]. intros _.
      by exists d, t, guide.
  - split.
    + right.
      assert (Hget : get reqBody "repoData" = Some (Frontend.wire (VObj repoFields)))
        by (by rewrite Hbody).
      assert (Hr : getOpt reqBody "repoData" = Frontend.wire (VObj repoFields))
        by (by rewrite Hbody).
      unfold namesRepository in Hrepo. rewrite Hr in Hrepo.
      unfold Guide.generate. rewrite Hget.
      destruct (truthy (Frontend.wire (VObj repoFields))); [|done].
      destruct (truthy (getOpt (Frontend.wire (VObj repoFields)) "fullName")); done.
    + unfold templatePath. by rewrite Hrepo.
Qed.

Lemma page_guide_requests_witness :
  exists selected sent guide,
    Frontend.transformIssue (fun _ => None) listedIssue = Some selected /\
    Frontend.generateGuideForIssue VNull reactRepo selected = Some (Some sent) /\
    body (fst (exec (Guide.generate localEnv None (Frontend.wire sent)) allDown))
    = VObj [("success", VBool true); ("data", guide); ("isTemplate", VBool true)] /\
    getOpt (getOpt guide "issueAnalysis") "difficulty" = VStr "medium".
Proof.
  eexists _, _.
  destruct (page_guide_requests_never_break_the_template (fun _ => None) listedIssue
              _ VNull reactRepo _ localEnv None allDown eq_refl eq_refl)
    as (_ & Htemplate).
  destruct (Htemplate eq_refl) as (d & t & guide & Hd & _ & Hbody & Hdiff & _).
  vm_compute in Hd. injection Hd as <-.
  exists guide. repeat split; [exact Hbody | exact Hdiff].
Defined.

(** For names written in ASCII: a skill typed into the skills page is
    stored once, as a Manual skill of confidence 80: the request is
    answered 200, and the skill list grows by that one entry unless the
    name is on file in some letter case, in which case it is left as it
    was. What the store makes of other value types plays no part. *)
Theorem page_add_stores_a_manual_skill_once
  (odmNumber : JsVal -> option Z) (odmString : JsVal -> option string)
  (uid trimmed : string) (sent : JsVal) (store : gmap string User)
  (user : User) (existing : list Skill) :
  Frontend.handleAddSkill trimmed = Some sent ->
  store !! uid = Some user ->
  skills user = Some existing ->
  isAscii trimmed = true -> asciiNames existing ->
  let added := {| name := trimmed; confidence := 80; category := "Manual" |} in
  let answer := Skills.postSkills odmNumber odmString uid (Frontend.wire sent) store in
  status (fst answer) = 200 /\
  snd answer =
    <[uid := Skills.setSkills user
               (if bool_decide (toLowerCase trimmed ∈ namesOnFile existing)
                then existing else (existing ++ [added])%list)]> store.
Proof.
  intros Hsent Huser Hskills _ _ added answer. unfold Frontend.handleAddSkill in Hsent.
  destruct (String.eqb trimmed "") eqn:Hempty; [done|]. injection Hsent as <-.
  unfold answer, Skills.postSkills.
  cbn [Frontend.wire get lookupField String.eqb Ascii.eqb Bool.eqb andb List.map].
  rewrite Huser. cbn [mbind option_bind]. rewrite Hskills. cbn [fmap option_fmap option_map].
  cbn [Skills.filterNew Skills.lowerName get lookupField String.eqb Ascii.eqb Bool.eqb andb].
  fold (namesOnFile existing).
  destruct (bool_decide (toLowerCase trimmed ∈ namesOnFile existing)).
  - cbn [fmap list_fmap mapM mret option_ret]. split; [done|]. cbn [snd].
    by rewrite app_nil_r.
  - cbn [fmap list_fmap Skills.newSkill getOpt get lookupField String.eqb Ascii.eqb
           Bool.eqb andb Js.orElse truthy Z.eqb negb].
    assert (Hcast : Skills.castSkill odmNumber odmString
                      (Skills.newSkill
                         (VObj [("name", VStr trimmed); ("category", VStr "Manual")]))
                    = Some added) by reflexivity.
    cbn [mapM]. rewrite Hcast. cbn [mbind option_bind mret option_ret fmap option_fmap
                                    option_map].
    split; done.
Qed.

Lemma page_add_witness :
  snd (Skills.postSkills noCoercion noCoercion "u1"
         (Frontend.wire (VObj [("skills",
            VArr [VObj [("name", VStr "python"); ("category", VStr "Manual")]])]))
         (storeOf [python]))
  = <[ "u1" := Skills.setSkills {| _id := "u1"; accessToken := None;
                                   skills := Some [python]; resume := Some cv |}
                 [python] ]> (storeOf [python]).
Proof.
  refine (proj2 (page_add_stores_a_manual_skill_once noCoercion noCoercion "u1" "python" _
                   (storeOf [python]) _ [python] eq_refl eq_refl eq_refl eq_refl _)).
  repeat constructor.
Defined.

(** The profile completion shown on the dashboard is 14 points for
    each of the seven checks that holds (avatar, bio, location, company,
    email, a skill, a public repository), so it is at most 98, and 98
    exactly when all seven hold: a profile with every field filled in
    is never shown as 100 per cent complete. *)
Theorem profile_completion_never_reaches_100
  (stringToNumber : string -> option Z) (user : JsVal) (skills : list JsVal) :
  truthy user = true ->
  interpolates (getOpt user "publicRepos") = true ->
  let checks := profileChecks stringToNumber user skills in
  let held := length (List.filter (fun check : bool => check) checks) in
  Frontend.calculateProfileCompletion stringToNumber user skills = 14 * Z.of_nat held /\
  Frontend.calculateProfileCompletion stringToNumber user skills <= 98 /\
  (Frontend.calculateProfileCompletion stringToNumber user skills = 98 <->
   forallb (fun check : bool => check) checks = true).
Proof.
  intros Huser _.
  assert (Hskills : (0 <? Z.of_nat (length skills)) = bool_decide (skills <> [])).
  { destruct skills as [|x l]; [done|]. rewrite bool_decide_eq_true_2 by done.
    apply Z.ltb_lt. cbn [length]. lia. }
  unfold Frontend.calculateProfileCompletion, profileChecks.
  rewrite Huser, Hskills. cbn [negb].
  destruct (truthy (getOpt user "avatar")), (truthy (getOpt user "bio")),
    (truthy (getOpt user "location")), (truthy (getOpt user "company")),
    (truthy (getOpt user "email")), (bool_decide (skills <> [])),
    (Coercion.gt stringToNumber (getOpt user "publicRepos") 0);
    vm_compute; repeat split; done.
Qed.

Lemma profile_completion_witness :
  Frontend.calculateProfileCompletion (fun _ => None) fullProfile
    [VObj [("name", VStr "Go")]] = 98.
Proof.
  exact (proj2 (proj2 (proj2 (profile_completion_never_reaches_100 (fun _ => None)
                                fullProfile [VObj [("name", VStr "Go")]]
                                eq_refl eq_refl))) eq_refl).
Defined.

(** ** The contribution calendar *)

Lemma loop_total (stringToNumber : string -> option Z) (days : list JsVal) :
  readable days ->
  forall n st, (n <= length days)%nat ->
               is_Some (Contributions.loop stringToNumber days n st).
Proof.
  intros Hdays. induction n as [|n IH]; intros st Hn; [by eexists|].
  cbn [Contributions.loop]. unfold Contributions.step.
  destruct (lookup_lt_is_Some_2 days n) as [day Hday]; [lia|].
  rewrite Hday. cbn [mbind option_bind].
  destruct (proj1 (Forall_lookup _ _) Hdays n day Hday) as [count ->].
  destruct (Coercion.gt _ _ _); apply IH; lia.
Qed.

(** A step of the loop reads the day at its index. *)
Lemma step_cases (stringToNumber : string -> option Z) (days : list JsVal) (i : nat)
  (st st' : Contributions.Streaks) :
  Contributions.step stringToNumber days i st = Some st' ->
  exists day,
    days !! i = Some day /\
    if contributed stringToNumber day
    then Contributions.longestStreak st' = Contributions.longestStreak st /\
         Contributions.tempStreak st' = Contributions.tempStreak st + 1 /\
         Contributions.currentStreak st' =
           (if Z.of_nat i =? Z.of_nat (length days) - 1
            then Contributions.tempStreak st + 1
            else Contributions.currentStreak st)
    else Contributions.longestStreak st' =
           Z.max (Contributions.longestStreak st) (Contributions.tempStreak st) /\
         Contributions.tempStreak st' = 0 /\
         Contributions.currentStreak st' = Contributions.currentStreak st.
Proof.
  unfold Contributions.step, contributed, getOpt.
  destruct (days !! i) as [day|]; [|done]. cbn [mbind option_bind].
  destruct (get day "contributionCount") as [count|] eqn:Hcount; [|done].
  intros Hstep. exists day. split; [done|]. rewrite Hcount.
  destruct (Coercion.gt stringToNumber count 0); by injection Hstep as <-.
Qed.

(** The iterations below the last index leave the current streak as
    it is. *)
Lemma loop_keeps_current (stringToNumber : string -> option Z) (days : list JsVal) :
  forall n st st',
    (n < length days)%nat ->
    Contributions.loop stringToNumber days n st = Some st' ->
    Contributions.currentStreak st' = Contributions.currentStreak st.
Proof.
  induction n as [|n IH]; intros st st' Hn; cbn [Contributions.loop].
  - by intros [= <-].
  - destruct (Contributions.step stringToNumber days n st) as [st1|] eqn:Hstep; [|done].
    intros Hloop. rewrite (IH st1 st') by (done || lia).
    destruct (step_cases _ _ _ _ _ Hstep) as (day & _ & Hcases).
    destruct (contributed stringToNumber day).
    + destruct Hcases as (_ & _ & ->).
      destruct (Z.of_nat n =? Z.of_nat (length days) - 1) eqn:Hlast; [lia|done].
    + by destruct Hcases as (_ & _ & ->).
Qed.

(** The invariant of the streak loop: with [n] iterations left, the
    temporary streak is the run that starts at index [n], and the
    longest streak bounds every run that starts later and is one of
    them. *)
Lemma loop_runs (stringToNumber : string -> option Z) (days : list JsVal) :
  forall n st st',
    Contributions.loop stringToNumber days n st = Some st' ->
    0 <= Contributions.tempStreak st ->
    0 <= Contributions.longestStreak st ->
    activeRun stringToNumber days n (Z.to_nat (Contributions.tempStreak st)) ->
    (forall day, days !! (n + Z.to_nat (Contributions.tempStreak st))%nat = Some day ->
                 contributed stringToNumber day = false) ->
    (exists i, activeRun stringToNumber days i
                 (Z.to_nat (Contributions.longestStreak st))) ->
    (forall i k, (n <= i)%nat -> activeRun stringToNumber days i k ->
                 Z.of_nat k <= Z.max (Contributions.longestStreak st)
                                 (Contributions.tempStreak st)) ->
    let longest := Z.max (Contributions.longestStreak st')
                     (Contributions.tempStreak st') in
    0 <= longest /\
    (exists i, activeRun stringToNumber days i (Z.to_nat longest)) /\
    (forall i k, activeRun stringToNumber days i k -> Z.of_nat k <= longest).
Proof.
  induction n as [|n IH]; intros st st' Hloop Htemp Hlong Hrun Hstop Hbest Hbound;
    cbn [Contributions.loop] in Hloop.
  - injection Hloop as <-. cbn zeta. split; [lia|]. split.
    + destruct (Z.max_spec (Contributions.longestStreak st)
                  (Contributions.tempStreak st)) as [[_ ->]|[_ ->]]; [|done].
      by exists 0%nat.
    + intros i k. apply Hbound. lia.
  - destruct (Contributions.step stringToNumber days n st) as [st1|] eqn:Hstep; [|done].
    destruct (step_cases _ _ _ _ _ Hstep) as (day & Hday & Hcases).
    destruct (contributed stringToNumber day) eqn:Hactive.
    + destruct Hcases as (Hl & Ht & _).
      apply (IH st1 st' Hloop); rewrite ?Hl, ?Ht; try lia.
      * intros j Hj. destruct (decide (j = n)) as [->|Hne]; [by exists day|].
        apply Hrun. lia.
      * intros d Hd. apply Hstop.
        by replace (S n + Z.to_nat (Contributions.tempStreak st))%nat
          with (n + Z.to_nat (Contributions.tempStreak st + 1))%nat by lia.
      * done.
      * intros i k Hi Hik. destruct (decide (i = n)) as [->|Hne].
        -- destruct (decide (Z.of_nat k <= Contributions.tempStreak st + 1)) as [|Hbig];
             [lia|].
           destruct (Hik (S n + Z.to_nat (Contributions.tempStreak st))%nat)
             as (d & Hd & Hdactive); [lia|].
           by rewrite (Hstop d Hd) in Hdactive.
        -- specialize (Hbound i k ltac:(lia) Hik). lia.
    + destruct Hcases as (Hl & Ht & _).
      apply (IH st1 st' Hloop); rewrite ?Hl, ?Ht; try lia.
      * intros j Hj. cbn in Hj. lia.
      * intros d Hd. replace (n + Z.to_nat 0)%nat with n in Hd by lia.
        rewrite Hday in Hd. by injection Hd as <-.
      * destruct (Z.max_spec (Contributions.longestStreak st)
                    (Contributions.tempStreak st)) as [[_ ->]|[_ ->]]; [|done].
        by exists (S n).
      * intros i k Hi Hik. destruct (decide (i = n)) as [->|Hne].
        -- destruct k as [|k]; [lia|].
           destruct (Hik n) as (d & Hd & Hdactive); [lia|].
           rewrite Hday in Hd. injection Hd as <-. congruence.
        -- specialize (Hbound i k ltac:(lia) Hik). lia.
Qed.

(** The longest streak the contributions route reports is the length
    of the longest run of consecutive days with contributions: the
    calendar has a run of that length and no longer one. The
    calculation succeeds whenever every day is an object. *)
Theorem longest_streak_is_the_longest_run
  (stringToNumber : string -> option Z) (days : list JsVal) :
  readable days ->
  exists current longest,
    Contributions.streaks stringToNumber days = Some (current, longest) /\
    0 <= longest /\
    (exists i, activeRun stringToNumber days i (Z.to_nat longest)) /\
    (forall i k, activeRun stringToNumber days i k -> Z.of_nat k <= longest).
Proof.
  intros Hdays. unfold Contributions.streaks.
  destruct (loop_total stringToNumber days Hdays (length days)
              {| Contributions.currentStreak := 0; Contributions.longestStreak := 0;
                 Contributions.tempStreak := 0 |} ltac:(lia)) as [st Hloop].
  rewrite Hloop. eexists _, _. split; [reflexivity|].
  apply (loop_runs _ _ _ _ _ Hloop); cbn [Contributions.tempStreak
    Contributions.longestStreak]; try lia.
  - intros j Hj. cbn in Hj. lia.
  - intros day Hday. apply lookup_lt_Some in Hday. cbn in Hday. lia.
  - exists 0%nat. intros j Hj. cbn in Hj. lia.
  - intros i k Hi Hik. destruct k as [|k]; [lia|].
    destruct (Hik i) as (day & Hday & _); [lia|].
    apply lookup_lt_Some in Hday. lia.
Qed.

Lemma longest_streak_witness :
  exists current,
    Contributions.streaks (fun _ => None)
      [dayWith 2; dayWith 0; dayWith 1; dayWith 4; dayWith 3; dayWith 0; dayWith 5]
    = Some (current, 3).
Proof.
  destruct (longest_streak_is_the_longest_run (fun _ => None)
              [dayWith 2; dayWith 0; dayWith 1; dayWith 4; dayWith 3; dayWith 0; dayWith 5])
    as (current & longest & Hstreaks & _).
  { repeat (constructor; [by eexists|]). constructor. }
  exists current. rewrite Hstreaks. vm_compute in Hstreaks.
  by injection Hstreaks as <- <-.
Defined.

(** The current streak the contributions route reports is 1 when the
    last day of the calendar has contributions and 0 otherwise, however
    many days before it have contributions too; it never exceeds the
    longest streak. *)
Theorem current_streak_is_at_most_one
  (stringToNumber : string -> option Z) (days : list JsVal) :
  readable days ->
  exists current longest,
    Contributions.streaks stringToNumber days = Some (current, longest) /\
    current = match last days with
              | Some day => if contributed stringToNumber day then 1 else 0
              | None => 0
              end /\
    current <= longest.
Proof.
  intros Hdays. unfold Contributions.streaks.
  destruct (loop_total stringToNumber days Hdays (length days)
              {| Contributions.currentStreak := 0; Contributions.longestStreak := 0;
                 Contributions.tempStreak := 0 |} ltac:(lia)) as [st Hloop].
  rewrite Hloop. eexists _, _. split; [reflexivity|].
  destruct (length days) as [|n] eqn:Hlen.
  - apply length_zero_iff_nil in Hlen as ->. cbn in Hloop. by injection Hloop as <-.
  - cbn [Contributions.loop] in Hloop.
    destruct (Contributions.step stringToNumber days n _) as [st1|] eqn:Hstep; [|done].
    destruct (step_cases _ _ _ _ _ Hstep) as (day & Hday & Hcases).
    assert (Hlast : last days = Some day).
    { rewrite last_lookup, Hlen. exact Hday. }
    assert (Hbelow : (n < length days)%nat) by lia.
    rewrite Hlast, (loop_keeps_current _ _ _ _ _ Hbelow Hloop).
    cbn [Contributions.currentStreak Contributions.longestStreak
           Contributions.tempStreak] in Hcases.
    destruct (contributed stringToNumber day) eqn:Hactive.
    + destruct Hcases as (Hl & Ht & Hc). rewrite Hc, Hlen.
      rewrite (proj2 (Z.eqb_eq (Z.of_nat n) (Z.of_nat (S n) - 1))) by lia.
      split; [done|].
      assert (Hrun : activeRun stringToNumber days n 1).
      { intros j Hj. replace j with n by lia. by exists day. }
      destruct (loop_runs _ _ _ _ _ Hloop) as (_ & _ & Hbound);
        rewrite ?Hl, ?Ht; cbn [Z.to_nat]; try lia.
      * intros j Hj. replace j with n by lia. by exists day.
      * intros d Hd. apply lookup_lt_Some in Hd. lia.
      * exists 0%nat. intros j Hj. cbn in Hj. lia.
      * intros i k Hi Hik. destruct k as [|[|k]]; [lia..|].
        destruct (Hik (S i)) as (d & Hd & _); [lia|].
        apply lookup_lt_Some in Hd. lia.
      * specialize (Hbound n 1%nat Hrun). lia.
    + destruct Hcases as (Hl & Ht & ->). split; [done|].
      pose proof (Z.le_max_l (Contributions.longestStreak st)
                    (Contributions.tempStreak st)) as Hmax.
      destruct (loop_runs _ _ _ _ _ Hloop) as (Hnonneg & _);
        rewrite ?Hl, ?Ht; cbn [Z.to_nat Z.max]; try lia.
      * intros j Hj. cbn in Hj. lia.
      * intros d Hd. change (Z.to_nat 0) with 0%nat in Hd. rewrite Nat.add_0_r in Hd.
        rewrite Hday in Hd. by injection Hd as <-.
      * exists 0%nat. intros j Hj. cbn in Hj. lia.
      * intros i k Hi Hik. destruct k as [|k]; [cbn; lia|].
        destruct (decide (i = n)) as [->|Hne].
        -- destruct (Hik n) as (d & Hd & Hdactive); [lia|].
           rewrite Hday in Hd. injection Hd as <-. congruence.
        -- destruct (Hik i) as (d & Hd & _); [lia|].
           apply lookup_lt_Some in Hd. lia.
Qed.

Lemma current_streak_witness :
  exists longest,
    Contributions.streaks (fun _ => None)
      [dayWith 0; dayWith 1; dayWith 4; dayWith 3] = Some (1, longest).
Proof.
  destruct (current_streak_is_at_most_one (fun _ => None)
              [dayWith 0; dayWith 1; dayWith 4; dayWith 3])
    as (current & longest & Hstreaks & Hcurrent & _).
  { repeat (constructor; [by eexists|]). constructor. }
  exists longest. rewrite Hstreaks. vm_compute in Hcurrent. by rewrite Hcurrent.
Defined.

(** For counts that are numbers from 0 on, the level of a calendar
    day grows with its count and lies between 0 and 4, and a day has
    level 0 exactly when the streak loop takes it as a day without
    contributions. *)
Theorem levels_follow_the_count
  (stringToNumber : string -> option Z) (day : JsVal) (a b : Z) :
  get day "contributionCount" = Some (VNum a) ->
  0 <= a <= b ->
  Contributions.level stringToNumber (VNum a)
    <= Contributions.level stringToNumber (VNum b) /\
  0 <= Contributions.level stringToNumber (VNum a) <= 4 /\
  (Contributions.level stringToNumber (VNum a) = 0 <->
   contributed stringToNumber day = false).
Proof.
  intros Hcount Hab. unfold contributed, getOpt. rewrite Hcount.
  unfold Contributions.level, Coercion.lt, Coercion.gt, Coercion.toNumber.
  destruct a as [|p|p], b as [|q|q]; try lia;
    repeat match goal with
           | |- context [?x <? ?y] => destruct (Z.ltb_spec x y)
           end; (split; [lia|]); (split; [lia|]); split; (done || lia).
Qed.

Lemma levels_witness :
  Contributions.level (fun _ => None) (VNum 4)
    <= Contributions.level (fun _ => None) (VNum 12).
Proof.
  refine (proj1 (levels_follow_the_count (fun _ => None) (dayWith 4) 4 12 eq_refl _)).
  lia.
Defined.

(** ** The skills the guide route sends *)

(** For a signed-in user with a skill list the guide route sends the
    AI service the skills on file, also when that list is empty: the
    skills of the request body are never used. The call is the only one
    the route makes. *)
Theorem guide_sends_the_skills_on_file (env : Env) (user : User) (sk : list Skill)
  (reqBody : JsVal) (w : World) :
  skills user = Some sk ->
  namesRepository reqBody = true ->
  exists payload,
    snd (exec (Guide.generate env (Some user) reqBody) w) =
      [EvPost (AI_SERVICE_URL env +:+ "/api/generate-guide") payload 60000] /\
    getOpt payload "userSkills" = Skills.skillsToJs sk /\
    getOpt payload "userId" = VStr (_id user).
Proof.
  intros Hsk Hrepo. unfold exec. rewrite generate_run by done.
  eexists. split; [reflexivity|].
  unfold Guide.aiPayload, Guide.userSkills. cbn [mbind option_bind]. rewrite Hsk.
  by split.
Qed.

Lemma guide_sends_the_skills_on_file_witness :
  exists payload,
    snd (exec (Guide.generate localEnv (Some userWithoutSkills)
                 (VObj [("repoData", reactRepo);
                        ("userContext", VObj [("skills", VArr [VStr "Rust"])])]))
           allDown) =
      [EvPost "http://localhost:8000/api/generate-guide" payload 60000] /\
    getOpt payload "userSkills" = VArr [].
Proof.
  destruct (guide_sends_the_skills_on_file localEnv userWithoutSkills []
              (VObj [("repoData", reactRepo);
                     ("userContext", VObj [("skills", VArr [VStr "Rust"])])])
              allDown eq_refl eq_refl) as (payload & Htrace & Hskills & _).
  exists payload. split; [exact Htrace | exact Hskills].
Defined.
